(** * GeneVisualizations: migration utilities of the dv-site backend

    A shallow embedding of the three migration modules

      - [backend/migrations/schema_definitions.py]
      - [backend/database/migrations/migrate_rna_seq_data.py]
      - [backend/database/migrations/migrate_enrichment_data.py]

    Python text is modelled as [string] (ASCII text: [str.lower] acts on the
    letters A-Z and leaves every other character alone), Python values as
    the inductive type [Py.pyval], table rows as [gmap string _], and the
    PostgreSQL connection as an explicit state with a committed and a
    pending database. *)

From Stdlib Require Import ZArith Ascii String List Bool Lia.
From Stdlib Require Import Floats.SpecFloat.
From stdpp Require Import base option list gmap strings fin_maps.

Import ListNotations.
Local Open Scope string_scope.
Set Warnings "-register-all".

(** ** Python string primitives *)

Module PyStr.

Definition is_upper (c : ascii) : bool :=
  let n := N_of_ascii c in (65 <=? n)%N && (n <=? 90)%N.

Definition lower_ascii (c : ascii) : ascii :=
  if is_upper c then ascii_of_N (N_of_ascii c + 32) else c.

(** [s.lower()] *)
Fixpoint lower (s : string) : string :=
  match s with
  | EmptyString => EmptyString
  | String c s' => String (lower_ascii c) (lower s')
  end.

(** No character of [s] is an upper-case letter. *)
Fixpoint all_lower (s : string) : bool :=
  match s with
  | EmptyString => true
  | String c s' => negb (is_upper c) && all_lower s'
  end.

(** [s.startswith(p)] *)
Definition startswith (s p : string) : bool := String.prefix p s.

(** [sub in s] *)
Fixpoint contains (sub s : string) : bool :=
  String.prefix sub s ||
  match s with
  | EmptyString => false
  | String _ s' => contains sub s'
  end.

(** [s.endswith(suf)] *)
Fixpoint endswith (s suf : string) : bool :=
  String.eqb s suf ||
  match s with
  | EmptyString => false
  | String _ s' => endswith s' suf
  end.

(** [sep.join(parts)] *)
Fixpoint join (sep : string) (parts : list string) : string :=
  match parts with
  | [] => ""
  | [p] => p
  | p :: ps => p ++ sep ++ join sep ps
  end.

(** The text of [s] before its first blank: the column name of a column
    definition such as ["gene_id VARCHAR(50) PRIMARY KEY"]. *)
Fixpoint first_token (s : string) : string :=
  match s with
  | EmptyString => EmptyString
  | String c s' => if Ascii.eqb c " " then EmptyString else String c (first_token s')
  end.

End PyStr.

(** ** Python values and results *)

Module Py.

(** What [json.load] returns, and what a DataFrame cell or a statement
    parameter holds.  A dict is the list of its items in insertion order;
    its keys are distinct, as in Python. *)
Inductive pyval :=
| PNone
| PBool (b : bool)
| PInt (n : Z)
| PFloat (f : spec_float)
| PStr (s : string)
| PList (l : list pyval)
| PDict (d : list (string * pyval)).

Definition float_zero : spec_float := S754_zero false.                (* 0.0 *)
Definition float_one : spec_float := S754_finite false 4503599627370496 (-52).  (* 1.0 *)

Definition float_is_zero (f : spec_float) : bool :=
  match f with S754_zero _ => true | _ => false end.

(** Truth value testing: [bool(v)]. *)
Definition truthy (v : pyval) : bool :=
  match v with
  | PNone => false
  | PBool b => b
  | PInt n => negb (n =? 0)%Z
  | PFloat f => negb (float_is_zero f)
  | PStr s => negb (String.eqb s "")
  | PList l => match l with [] => false | _ => true end
  | PDict d => match d with [] => false | _ => true end
  end.

(** [d.get(key, default)] *)
Fixpoint dict_get (d : list (string * pyval)) (key : string) (default : pyval) : pyval :=
  match d with
  | [] => default
  | (k, v) :: d' => if String.eqb k key then v else dict_get d' key default
  end.

(** [key in d] *)
Definition dict_has (d : list (string * pyval)) (key : string) : bool :=
  existsb (fun kv => String.eqb (fst kv) key) d.

Instance spec_float_eq_dec : EqDecision spec_float.
Proof. solve_decision. Defined.

Fixpoint pyval_eqb (a b : pyval) {struct a} : bool :=
  match a, b with
  | PNone, PNone => true
  | PBool x, PBool y => Bool.eqb x y
  | PInt x, PInt y => (x =? y)%Z
  | PFloat x, PFloat y => bool_decide (x = y)
  | PStr x, PStr y => String.eqb x y
  | PList l1, PList l2 =>
      (fix go (l1 l2 : list pyval) : bool :=
         match l1, l2 with
         | [], [] => true
         | x :: l1', y :: l2' => pyval_eqb x y && go l1' l2'
         | _, _ => false
         end) l1 l2
  | PDict d1, PDict d2 =>
      (fix go (d1 d2 : list (string * pyval)) : bool :=
         match d1, d2 with
         | [], [] => true
         | (k1, x) :: d1', (k2, y) :: d2' =>
             String.eqb k1 k2 && pyval_eqb x y && go d1' d2'
         | _, _ => false
         end) d1 d2
  | _, _ => false
  end.

Lemma pyval_eqb_eq : forall a b, pyval_eqb a b = true -> a = b.
Proof.
  fix IH 1. intros a b; destruct a, b; simpl; try discriminate; intros H.
  - reflexivity.
  - apply Bool.eqb_prop in H. congruence.
  - apply Z.eqb_eq in H. congruence.
  - apply bool_decide_eq_true in H. congruence.
  - apply String.eqb_eq in H. congruence.
  - f_equal. revert l0 H. induction l as [|x l IHl]; intros [|y l0] H;
      try discriminate; [reflexivity|].
    apply andb_prop in H as [Hx Hl]. f_equal; [apply IH, Hx | apply IHl, Hl].
  - f_equal. revert d0 H. induction d as [|[k1 x] d IHd]; intros [|[k2 y] d0] H;
      try discriminate; [reflexivity|].
    apply andb_prop in H as [H Hd]. apply andb_prop in H as [Hk Hx].
    apply String.eqb_eq in Hk. f_equal; [f_equal; [exact Hk | apply IH, Hx] | apply IHd, Hd].
Qed.

Lemma pyval_eqb_refl : forall a, pyval_eqb a a = true.
Proof.
  fix IH 1. intros a; destruct a; simpl.
  - reflexivity.
  - apply Bool.eqb_reflx.
  - apply Z.eqb_refl.
  - apply bool_decide_eq_true. reflexivity.
  - apply String.eqb_refl.
  - induction l as [|x l IHl]; [reflexivity|]. rewrite IH, IHl. reflexivity.
  - induction d as [|[k x] d IHd]; [reflexivity|].
    rewrite String.eqb_refl, IH, IHd. reflexivity.
Qed.

#[export] Instance pyval_eq_dec : EqDecision pyval.
Proof.
  intros a b. destruct (pyval_eqb a b) eqn:E.
  - left. apply pyval_eqb_eq, E.
  - right. intros ->. rewrite pyval_eqb_refl in E. discriminate.
Defined.

(** How a call ends: it returns, or an exception propagates.  [SystemExit]
    and [KeyboardInterrupt] derive from [BaseException] only, so that an
    [except Exception] clause lets them through. *)
Inductive exn :=
| SystemExit (code : Z)
| KeyboardInterrupt
| PyException (what : string).

Inductive result (A : Type) :=
| Return (a : A)
| Raise (e : exn).
Arguments Return {A} a.
Arguments Raise {A} e.

Definition bind {A B} (m : result A) (k : A -> result B) : result B :=
  match m with
  | Return a => k a
  | Raise e => Raise e
  end.

(** [try: body / except Exception as e: handler] *)
Definition except_Exception {A} (body : result A) (handler : string -> result A) : result A :=
  match body with
  | Raise (PyException what) => handler what
  | other => other
  end.

(** The exit status of the interpreter when the main module ends with [r]:
    0 after a normal return, the code of a [SystemExit], and 1 after an
    exception nobody caught. *)
Definition exit_status (r : result unit) : Z :=
  match r with
  | Return _ => 0
  | Raise (SystemExit code) => code
  | Raise _ => 1
  end.

End Py.

(** ** The database: tables, upsert statements, transactions

    The SQL the scripts send is modelled by its abstract syntax
    ([upsert_stmt]) and PostgreSQL by the semantics of that syntax.  A row
    maps column names to values; a column that is NULL is absent from the
    map. *)

Module Pg.
Import Py.

Inductive sqlval :=
| Param (v : pyval)        (* a value adapted from Python *)
| Timestamp (t : Z).       (* a value of CURRENT_TIMESTAMP *)

#[export] Instance sqlval_eq_dec : EqDecision sqlval.
Proof. solve_decision. Defined.

(** psycopg2 sends [None] as NULL. *)
Definition adapt (v : pyval) : option sqlval :=
  match v with
  | PNone => None
  | _ => Some (Param v)
  end.

(** The values of a VALUES clause, column by column. *)
Fixpoint bind_params (cols : list string) (params : list pyval) : gmap string sqlval :=
  match cols, params with
  | c :: cols', v :: params' =>
      let r := bind_params cols' params' in
      match adapt v with
      | Some x => <[c := x]> r
      | None => delete c r
      end
  | _, _ => ∅
  end.

Record table := {
  schema : list string;        (* the column names *)
  not_null : list string;      (* PRIMARY KEY / NOT NULL columns *)
  ts_default : list string;    (* columns with DEFAULT CURRENT_TIMESTAMP *)
  rows : list (gmap string sqlval)
}.

Definition with_rows (t : table) (rs : list (gmap string sqlval)) : table :=
  {| schema := schema t; not_null := not_null t;
     ts_default := ts_default t; rows := rs |}.

(** INSERT INTO into (insert_cols) VALUES (...)
    ON CONFLICT (conflict_target) DO UPDATE SET
      c = EXCLUDED.c           for c in set_excluded
      c = CURRENT_TIMESTAMP    for c in set_current_timestamp *)
Record upsert_stmt := {
  into : string;
  insert_cols : list string;
  conflict_target : list string;
  set_excluded : list string;
  set_current_timestamp : list string
}.

(** The row proposed for insertion (EXCLUDED): the bound values, and the
    defaults of the columns the statement does not list. *)
Definition default_row (now : Z) (cols : list string) : gmap string sqlval :=
  list_to_map ((fun c => (c, Timestamp now)) <$> cols).

Definition excluded_row (t : table) (st : upsert_stmt) (now : Z)
           (values : gmap string sqlval) : gmap string sqlval :=
  values ∪ default_row now (List.filter (fun c => negb (bool_decide (c ∈ insert_cols st)))
                                        (ts_default t)).

Definition key_of (target : list string) (r : gmap string sqlval) : list (option sqlval) :=
  (fun c => r !! c) <$> target.

(** Two rows conflict on the target when they agree on every target column
    and none of these is NULL (a NULL equals nothing). *)
Definition conflicts (target : list string) (old excl : gmap string sqlval) : bool :=
  bool_decide (key_of target old = key_of target excl)
  && forallb (fun o => match o with Some _ => true | None => false end) (key_of target excl).

(** DO UPDATE SET ... applied to the existing row. *)
Definition do_update (st : upsert_stmt) (now : Z)
           (excl old : gmap string sqlval) : gmap string sqlval :=
  let r1 := foldr (fun c r => partial_alter (fun _ => excl !! c) c r) old (set_excluded st) in
  foldr (fun c r => <[c := Timestamp now]> r) r1 (set_current_timestamp st).

(** Insert-or-update on a list of rows: the first row in conflict is
    updated in place; without one the new row is appended. *)
Fixpoint upsert_list {X : Type} (cf : X -> bool) (upd : X -> X) (new : X)
         (rs : list X) : list X :=
  match rs with
  | [] => [new]
  | old :: rest =>
      if cf old then upd old :: rest else old :: upsert_list cf upd new rest
  end.

Definition upsert_rows (st : upsert_stmt) (now : Z) (excl : gmap string sqlval)
           (rs : list (gmap string sqlval)) : list (gmap string sqlval) :=
  upsert_list (fun old => conflicts (conflict_target st) old excl)
              (do_update st now excl) excl rs.

Abbreviation db := (gmap string table).

Section Exec.
(** Whatever else the table definition checks (types, lengths, further
    constraints), as a verdict on the values sent. *)
Variable accepts : string -> gmap string sqlval -> bool.

Definition known_columns (t : table) (st : upsert_stmt) : bool :=
  forallb (fun c => bool_decide (c ∈ schema t))
          (insert_cols st ++ conflict_target st ++ set_excluded st
             ++ set_current_timestamp st).

Definition stmt_ok (t : table) (st : upsert_stmt) (now : Z)
           (values : gmap string sqlval) : bool :=
  known_columns t st
  && bool_decide (NoDup (insert_cols st))
  && forallb (fun c => bool_decide (is_Some (excluded_row t st now values !! c)))
             (not_null t)
  && accepts (into st) values.

(** One execution of the statement; [None] is a [psycopg2.Error]. *)
Definition exec_upsert (st : upsert_stmt) (now : Z) (values : gmap string sqlval)
           (d : db) : option db :=
  match d !! into st with
  | None => None
  | Some t =>
      if stmt_ok t st now values
      then Some (<[into st := with_rows t (upsert_rows st now (excluded_row t st now values)
                                                       (rows t))]> d)
      else None
  end.

(** The statement run once per parameter set, in order, as
    [cursor.executemany] and [execute_batch] do. *)
Fixpoint exec_many (st : upsert_stmt) (now : Z) (batch : list (gmap string sqlval))
         (d : db) : option db :=
  match batch with
  | [] => Some d
  | values :: batch' =>
      match exec_upsert st now values d with
      | Some d' => exec_many st now batch' d'
      | None => None
      end
  end.
End Exec.

(** CREATE TABLE IF NOT EXISTS name (defs) *)
Definition create_table_if_not_exists (name : string) (defs : list string) (d : db) : db :=
  match d !! name with
  | Some _ => d
  | None =>
      <[name := {| schema := PyStr.first_token <$> defs;
                   not_null := PyStr.first_token <$>
                               List.filter (PyStr.contains "PRIMARY KEY") defs;
                   ts_default := PyStr.first_token <$>
                                 List.filter (PyStr.contains "DEFAULT CURRENT_TIMESTAMP") defs;
                   rows := [] |}]> d
  end.

(** A connection: what is committed, and what the open transaction sees. *)
Record conn := { committed : db; pending : db }.

Definition commit (c : conn) : conn := {| committed := pending c; pending := pending c |}.
Definition rollback (c : conn) : conn := {| committed := committed c; pending := committed c |}.
Definition on_pending (c : conn) (d : db) : conn := {| committed := committed c; pending := d |}.

End Pg.

(** ** schema_definitions.py *)

Module SchemaDefinitions.
Import PyStr.

Definition base_columns : list string :=
  [ "-- Gene identification";
    "gene_id VARCHAR(50) PRIMARY KEY";
    "gene_name VARCHAR(100)";
    "gene_chr VARCHAR(10)";
    "gene_start BIGINT";
    "gene_end BIGINT";
    "gene_strand VARCHAR(1)";
    "gene_length INTEGER";
    "gene_biotype VARCHAR(50)";
    "gene_description TEXT";
    "tf_family VARCHAR(50)";
    "";
    "-- Statistical analysis results";
    "log2foldchange DOUBLE PRECISION";
    "pvalue DOUBLE PRECISION";
    "padj DOUBLE PRECISION";
    "log10_padj DOUBLE PRECISION";
    "";
    "-- Metadata";
    "created_at TIMESTAMP DEFAULT CURRENT_TIMESTAMP" ].

(** The three name patterns of the loop over [columns]. *)
Definition is_sample (col_lower : string) : bool :=
  startswith col_lower "shef" &&
  negb (existsb (fun suffix => contains suffix col_lower)
                ["_readcount"; "_fpkm"; "readcount"; "fpkm"]).

Definition is_readcount (col_lower : string) : bool :=
  contains "_readcount" col_lower || endswith col_lower "readcount".

Definition is_fpkm (col_lower : string) : bool :=
  contains "_fpkm" col_lower || endswith col_lower "fpkm".

Inductive bucket := Sample | ReadCount | Fpkm | Unmatched.

(** The if/elif/elif chain, in its order. *)
Definition classify (col : string) : bucket :=
  let col_lower := lower col in
  if is_sample col_lower then Sample
  else if is_readcount col_lower then ReadCount
  else if is_fpkm col_lower then Fpkm
  else Unmatched.

Definition sample_columns (columns : list string) : list string :=
  flat_map (fun col => match classify col with
                       | Sample => [lower col ++ " DOUBLE PRECISION"]
                       | _ => [] end) columns.

Definition readcount_columns (columns : list string) : list string :=
  flat_map (fun col => match classify col with
                       | ReadCount => [lower col ++ " INTEGER"]
                       | _ => [] end) columns.

Definition fpkm_columns (columns : list string) : list string :=
  flat_map (fun col => match classify col with
                       | Fpkm => [lower col ++ " DOUBLE PRECISION"]
                       | _ => [] end) columns.

(** [group header cols]: the three lines appended when [cols] is not empty. *)
Definition group (header : string) (cols : list string) : list string :=
  match cols with
  | [] => []
  | _ => "" :: header :: cols
  end.

Definition all_columns (columns : list string) : list string :=
  firstn 10 base_columns
  ++ group "-- Sample expression values" (sample_columns columns)
  ++ firstn 6 (skipn 10 base_columns)
  ++ group "-- Read counts for each sample" (readcount_columns columns)
  ++ group "-- FPKM values for each sample" (fpkm_columns columns)
  ++ skipn 16 base_columns.

Definition default_sql_columns : list string :=
  [ "gene_id VARCHAR(50) PRIMARY KEY"; "gene_name VARCHAR(100)";
    "gene_chr VARCHAR(10)"; "gene_start BIGINT"; "gene_end BIGINT";
    "gene_strand VARCHAR(1)"; "gene_length INTEGER";
    "gene_biotype VARCHAR(50)"; "gene_description TEXT";
    "tf_family VARCHAR(50)";
    "shef21 DOUBLE PRECISION"; "shef22 DOUBLE PRECISION";
    "shef24 DOUBLE PRECISION"; "shef25 DOUBLE PRECISION";
    "shef1 DOUBLE PRECISION"; "shef2 DOUBLE PRECISION";
    "shef3 DOUBLE PRECISION"; "shef4 DOUBLE PRECISION";
    "shef5 DOUBLE PRECISION";
    "log2foldchange DOUBLE PRECISION"; "pvalue DOUBLE PRECISION";
    "padj DOUBLE PRECISION"; "log10_padj DOUBLE PRECISION";
    "shef21_readcount INTEGER"; "shef22_readcount INTEGER";
    "shef24_readcount INTEGER"; "shef25_readcount INTEGER";
    "shef1_readcount INTEGER"; "shef2_readcount INTEGER";
    "shef3_readcount INTEGER"; "shef4_readcount INTEGER";
    "shef5_readcount INTEGER";
    "shef21_fpkm DOUBLE PRECISION"; "shef22_fpkm DOUBLE PRECISION";
    "shef24_fpkm DOUBLE PRECISION"; "shef25_fpkm DOUBLE PRECISION";
    "shef1_fpkm DOUBLE PRECISION"; "shef2_fpkm DOUBLE PRECISION";
    "shef3_fpkm DOUBLE PRECISION"; "shef4_fpkm DOUBLE PRECISION";
    "shef5_fpkm DOUBLE PRECISION";
    "created_at TIMESTAMP DEFAULT CURRENT_TIMESTAMP" ].

(** [col and not col.startswith('--')] *)
Definition is_sql_line (col : string) : bool :=
  negb (String.eqb col "") && negb (startswith col "--").

(** The list [sql_columns] of [get_create_table_sql]; [columns] is the
    optional argument, [None] when it is left out. *)
Definition sql_columns (columns : option (list string)) : list string :=
  match columns with
  | Some (c :: cs) => List.filter is_sql_line (all_columns (c :: cs))
  | _ => default_sql_columns
  end.

Definition nl : string := String (ascii_of_N 10) EmptyString.
Definition dq : string := String (ascii_of_N 34) EmptyString.

Definition get_create_table_sql (comparison_name : string)
           (columns : option (list string)) : string :=
  let columns_sql := join ("," ++ nl ++ "        ") (sql_columns columns) in
  nl ++ "    CREATE TABLE IF NOT EXISTS " ++ dq ++ comparison_name ++ dq ++ " (" ++ nl
     ++ "        " ++ columns_sql ++ nl
     ++ "    );" ++ nl ++ "    ".

(** The names of the columns the CREATE TABLE statement declares. *)
Definition table_column_names (columns : option (list string)) : list string :=
  List.map first_token (sql_columns columns).

(** [get_insert_sql]: the text of the statement ... *)
Definition get_insert_sql (comparison_name : string) (columns : list string) : string :=
  let column_names := join ", " columns in
  let placeholders := join ", " (List.map (fun _ => "%s") columns) in
  nl ++ "    INSERT INTO " ++ dq ++ comparison_name ++ dq ++ " (" ++ column_names ++ ")" ++ nl
     ++ "    VALUES (" ++ placeholders ++ ")" ++ nl
     ++ "    ON CONFLICT (gene_id) DO UPDATE SET" ++ nl
     ++ "        gene_name = EXCLUDED.gene_name" ++ nl
     ++ "    ".

(** ... and the statement this text denotes. *)
Definition insert_stmt (comparison_name : string) (columns : list string) : Pg.upsert_stmt :=
  {| Pg.into := comparison_name;
     Pg.insert_cols := columns;
     Pg.conflict_target := ["gene_id"];
     Pg.set_excluded := ["gene_name"];
     Pg.set_current_timestamp := [] |}.

(** [get_create_indexes_sql]: the text of the four statements ... *)
Definition get_create_indexes_sql (comparison_name : string) : string :=
  let index (suffix column : string) :=
    "    CREATE INDEX IF NOT EXISTS idx_" ++ lower comparison_name ++ "_" ++ suffix
      ++ " ON " ++ dq ++ comparison_name ++ dq ++ "(" ++ column ++ ");" ++ nl in
  nl ++ index "gene_name" "gene_name"
     ++ index "chromosome" "gene_chr"
     ++ index "padj" "padj"
     ++ index "log2fc" "log2foldchange"
     ++ "    ".

(** ... and the columns they index. *)
Definition indexed_columns : list string :=
  [ "gene_name"; "gene_chr"; "padj"; "log2foldchange" ].

Definition get_grant_permissions_sql (comparison_name : string) : string :=
  "GRANT ALL PRIVILEGES ON TABLE " ++ dq ++ comparison_name ++ dq ++ " TO gene_admin;".

Definition get_count_rows_sql (comparison_name : string) : string :=
  "SELECT COUNT(*) FROM " ++ dq ++ comparison_name ++ dq.

End SchemaDefinitions.

(** ** database/migrations/migrate_rna_seq_data.py *)

Module MigrateRnaSeq.
Import PyStr Py Pg SchemaDefinitions.

(** A pandas DataFrame: the header and the rows of cells. *)
Record DataFrame := { df_columns : list string; df_values : list (list pyval) }.

(** The entry of [column_mapping] for the header [col]. *)
Definition column_mapping (col : string) : string :=
  let col_lower := lower col in
  if String.eqb col "log2FoldChange" then "log2foldchange"
  else if String.eqb col "-log10(padj)" then "log10_padj"
  else col_lower.

Definition map_csv_to_database_columns (df : DataFrame) : DataFrame :=
  {| df_columns := column_mapping <$> df_columns df; df_values := df_values df |}.

(** What the file system holds for a comparison. *)
Inductive csv_file :=
| CsvMissing                  (* no such file *)
| CsvUnreadable               (* [pd.read_csv] raises *)
| Csv (df : DataFrame).

Record world := {
  csv : string -> csv_file;
  can_connect : bool;                   (* [psycopg2.connect] succeeds *)
  available : list string;              (* [get_available_comparisons()] *)
  now : Z                               (* CURRENT_TIMESTAMP *)
}.

(** Code that runs on a connection: the connection after it, and how it ended. *)
Definition action (A : Type) := conn -> conn * result A.

Definition ret {A} (a : A) : action A := fun c => (c, Return a).
Definition seq {A B} (m : action A) (k : A -> action B) : action B :=
  fun c => match m c with
           | (c', Return a) => k a c'
           | (c', Raise e) => (c', Raise e)
           end.
Notation "x <- m ;; k" := (seq m (fun x => k))
  (at level 100, m at next level, right associativity).

Section WithDatabase.
Variable accepts : string -> gmap string sqlval -> bool.
(** Whether the server runs the CREATE TABLE, CREATE INDEX and GRANT
    statements of a comparison without error. *)
Variable ddl_ok : string -> list string -> bool.

Definition create_comparison_table (comparison_name : string)
           (columns : option (list string)) : action unit :=
  fun c =>
    let defs := sql_columns columns in
    if ddl_ok comparison_name defs
    then (commit (on_pending c (create_table_if_not_exists comparison_name defs (pending c))),
          Return tt)
    else (rollback c, Raise (SystemExit 1)).

Definition insert_data_to_database (w : world) (df : DataFrame)
           (comparison_name : string) : action unit :=
  fun c =>
    let columns := df_columns df in
    let insert_sql := insert_stmt comparison_name columns in
    let data_tuples := df_values df in
    match exec_many accepts insert_sql (now w)
                    (bind_params columns <$> data_tuples) (pending c) with
    | Some d => (commit (on_pending c d), Return tt)
    | None => (rollback c, Raise (SystemExit 1))
    end.

Definition read_csv_file (w : world) (comparison_name : string) : action DataFrame :=
  fun c => match csv w comparison_name with
           | Csv df => (c, Return df)
           | _ => (c, Raise (SystemExit 1))
           end.

(** The database after the call ([conn.close()] drops what is pending),
    and the result. *)
Definition migrate_single_comparison (w : world) (comparison_name : string)
           (d : db) : db * result bool :=
  match csv w comparison_name with
  | CsvMissing => (d, Return false)
  | _ =>
      if can_connect w then
        let body :=
          df <- read_csv_file w comparison_name ;;
          _ <- create_comparison_table comparison_name (Some (df_columns df)) ;;
          let df_mapped := map_csv_to_database_columns df in
          _ <- insert_data_to_database w df_mapped comparison_name ;;
          ret true in
        let (c, r) := body {| committed := d; pending := d |} in
        (committed c, except_Exception r (fun _ => Return false))
      else (d, Raise (SystemExit 1))
  end.

(** The loop of [main] under [--all]: the counters [successful] and
    [failed], unless a call does not return. *)
Fixpoint migrate_each (w : world) (names : list string) (successful failed : nat)
         (d : db) : db * result (nat * nat) :=
  match names with
  | [] => (d, Return (successful, failed))
  | comparison_name :: rest =>
      match migrate_single_comparison w comparison_name d with
      | (d', Return true) => migrate_each w rest (S successful) failed d'
      | (d', Return false) => migrate_each w rest successful (S failed) d'
      | (d', Raise e) => (d', Raise e)
      end
  end.

(** [main], with the parsed arguments [--all] and [comparison]. *)
Definition main (w : world) (all : bool) (comparison : option string)
           (d : db) : db * result unit :=
  if all then
    match available w with
    | [] => (d, Raise (SystemExit 1))
    | names =>
        match migrate_each w names 0 0 d with
        | (d', Return _) => (d', Return tt)
        | (d', Raise e) => (d', Raise e)
        end
    end
  else
    let chosen :=
      match comparison with
      | Some name => Return name
      | None => match available w with
                | [] => Raise (SystemExit 1)
                | first :: _ => Return first
                end
      end in
    match chosen with
    | Raise e => (d, Raise e)
    | Return comparison_name =>
        match migrate_single_comparison w comparison_name d with
        | (d', Return true) => (d', Return tt)
        | (d', Return false) => (d', Raise (SystemExit 1))
        | (d', Raise e) => (d', Raise e)
        end
    end.
End WithDatabase.

End MigrateRnaSeq.

(** ** database/migrations/migrate_enrichment_data.py

    The [verbose] flag only selects what is printed and is left out. *)

Module MigrateEnrichment.
Import PyStr Py Pg.

Definition DATABASE_MAPPING : list (string * string) :=
  [ ("KEGG", "KEGG"); ("RCTM", "Reactome"); ("WikiPathways", "WikiPathways") ].

(** [DATABASE_MAPPING.get(key, default)] *)
Fixpoint mapping_get (m : list (string * string)) (key default : string) : string :=
  match m with
  | [] => default
  | (k, v) :: m' => if String.eqb k key then v else mapping_get m' key default
  end.

(** [s.split('.')] *)
Fixpoint split_dot (s : string) : list string :=
  match s with
  | EmptyString => [EmptyString]
  | String c s' =>
      if Ascii.eqb c "." then EmptyString :: split_dot s'
      else match split_dot s' with
           | part :: parts => String c part :: parts
           | [] => [String c EmptyString]
           end
  end.

(** A name matches the pattern [enrichment.*.json]. *)
Definition glob_enrichment (name : string) : bool :=
  startswith name "enrichment." && endswith name ".json"
  && (16 <=? String.length name)%nat.

(** [Path.stem] of a name that ends in [.json]. *)
Definition stem (name : string) : string :=
  String.substring 0 (String.length name - 5) name.

(** An entry of the source directory and the names of the files in it. *)
Record dir_entry := { entry_name : string; is_dir : bool; file_names : list string }.

Inductive source_dir :=
| SourceMissing                        (* [base_dir.exists()] is false *)
| SourceUnreadable (what : string)     (* [base_dir.iterdir()] raises *)
| SourceEntries (entries : list dir_entry).

Record file_info := {
  fi_path : string * string;           (* directory and file name *)
  fi_comparison : string;
  fi_database : string
}.

(** How opening and decoding a file ends. *)
Inductive load_outcome :=
| JSONDecodeError
| ReadError                            (* any other [Exception] *)
| Interrupted                          (* [KeyboardInterrupt] while reading *)
| Loaded (data : pyval).

Record world := {
  source : source_dir;
  load : string * string -> load_outcome;
  can_connect : bool;
  now : Z
}.

Definition files_of_entry (comparison_dir : dir_entry) : list file_info :=
  if negb (is_dir comparison_dir) then []
  else if contains "test" (lower (entry_name comparison_dir)) then []
  else
    let comparison_name := entry_name comparison_dir in
    flat_map (fun json_file =>
                let filename_parts := split_dot (stem json_file) in
                match filename_parts with
                | [_; raw_database] =>
                    let database := mapping_get DATABASE_MAPPING raw_database raw_database in
                    [ {| fi_path := (comparison_name, json_file);
                         fi_comparison := comparison_name;
                         fi_database := database |} ]
                | _ => []
                end)
             (List.filter glob_enrichment (file_names comparison_dir)).

Definition find_enrichment_files (base_dir : source_dir) : result (list file_info) :=
  match base_dir with
  | SourceMissing => Raise (SystemExit 1)
  | SourceUnreadable what => Raise (PyException what)
  | SourceEntries entries => Return (flat_map files_of_entry entries)
  end.

(** The dict [record] of [parse_enrichment_file]. *)
Record EnrichmentRecord := {
  comparison : string;
  database : string;
  term_id : pyval;
  term_description : pyval;
  genes_mapped : pyval;
  enrichment_score : pyval;
  direction : pyval;
  false_discovery_rate : pyval;
  method : pyval;
  matching_protein_ids : pyval;
  matching_protein_labels : pyval
}.

Definition make_record (comparison database : string) (item : list (string * pyval))
  : EnrichmentRecord :=
  {| comparison := comparison;
     database := database;
     term_id := dict_get item "#term ID" (PStr "");
     term_description := dict_get item "term description" (PStr "");
     genes_mapped := dict_get item "genes mapped" (PInt 0);
     enrichment_score := dict_get item "enrichment score" (PFloat float_zero);
     direction := dict_get item "direction" (PStr "");
     false_discovery_rate := dict_get item "false discovery rate" (PFloat float_one);
     method := dict_get item "method" (PStr "");
     matching_protein_ids := dict_get item "matching proteins in your input (IDs)" (PStr "");
     matching_protein_labels :=
       dict_get item "matching proteins in your input (labels)" (PStr "") |}.

(** One turn of the loop over [data]: the record appended, if any.  An item
    that is no dict has no [get]: the [AttributeError] is caught and the
    loop continues. *)
Definition parse_item (comparison database : string) (item : pyval)
  : option EnrichmentRecord :=
  match item with
  | PDict d =>
      let record := make_record comparison database d in
      if negb (truthy (term_id record)) || negb (truthy (term_description record))
      then None
      else Some record
  | _ => None
  end.

Fixpoint parse_items (comparison database : string) (data : list pyval)
  : list EnrichmentRecord :=
  match data with
  | [] => []
  | item :: data' =>
      match parse_item comparison database item with
      | Some record => record :: parse_items comparison database data'
      | None => parse_items comparison database data'
      end
  end.

Definition parse_enrichment_file (w : world) (fi : file_info)
  : result (list EnrichmentRecord) :=
  match load w (fi_path fi) with
  | JSONDecodeError => Return []
  | ReadError => Return []
  | Interrupted => Raise KeyboardInterrupt
  | Loaded (PList data) => Return (parse_items (fi_comparison fi) (fi_database fi) data)
  | Loaded _ => Return []
  end.

(** Step 2 of [migrate_enrichment_data]: [all_records]. *)
Fixpoint parse_all (w : world) (files : list file_info) : result (list EnrichmentRecord) :=
  match files with
  | [] => Return []
  | fi :: files' =>
      bind (parse_enrichment_file w fi) (fun records =>
      bind (parse_all w files') (fun all_records =>
      Return (records ++ all_records)%list))
  end.

(** [insert_query] *)
Definition insert_query : upsert_stmt :=
  {| into := "enrichment_data";
     insert_cols :=
       [ "comparison"; "database"; "term_id"; "term_description";
         "genes_mapped"; "enrichment_score"; "direction";
         "false_discovery_rate"; "method";
         "matching_protein_ids"; "matching_protein_labels" ];
     conflict_target := [ "comparison"; "database"; "term_id" ];
     set_excluded :=
       [ "term_description"; "genes_mapped"; "enrichment_score"; "direction";
         "false_discovery_rate"; "method";
         "matching_protein_ids"; "matching_protein_labels" ];
     set_current_timestamp := [ "updated_at" ] |}.

(** The named parameters a record supplies to [insert_query]. *)
Definition record_values (r : EnrichmentRecord) : gmap string sqlval :=
  bind_params (insert_cols insert_query)
    [ PStr (comparison r); PStr (database r); term_id r; term_description r;
      genes_mapped r; enrichment_score r; direction r;
      false_discovery_rate r; method r;
      matching_protein_ids r; matching_protein_labels r ].

(** What the run reports on the console. *)
Inductive report :=
| NoFilesFound
| NoValidRecords
| WouldInsert (n : nat)        (* dry run *)
| Inserted (n : nat).

Section WithDatabase.
Variable accepts : string -> gmap string sqlval -> bool.

(** The connection afterwards and the count returned. *)
Definition insert_enrichment_data (w : world) (records : list EnrichmentRecord)
           (c : conn) : conn * nat :=
  match records with
  | [] => (c, 0)
  | _ =>
      match exec_many accepts insert_query (now w) (record_values <$> records)
                      (pending c) with
      | Some d => (commit (on_pending c d), length records)
      | None => (rollback c, 0)
      end
  end.

(** DELETE FROM enrichment_data *)
Definition clear_enrichment_data (c : conn) : conn :=
  match pending c !! "enrichment_data" with
  | Some t => commit (on_pending c (<["enrichment_data" := with_rows t []]> (pending c)))
  | None => rollback c
  end.

Definition migrate_enrichment_data (w : world) (dry_run clear : bool) (d : db)
  : db * result report :=
  match find_enrichment_files (source w) with
  | Raise e => (d, Raise e)
  | Return [] => (d, Return NoFilesFound)
  | Return files =>
      match parse_all w files with
      | Raise e => (d, Raise e)
      | Return [] => (d, Return NoValidRecords)
      | Return all_records =>
          if dry_run then (d, Return (WouldInsert (length all_records)))
          else if can_connect w then
            let c0 := {| committed := d; pending := d |} in
            let c1 := if clear then clear_enrichment_data c0 else c0 in
            let (c2, inserted_count) := insert_enrichment_data w all_records c1 in
            (committed c2, Return (Inserted inserted_count))
          else (d, Raise (SystemExit 1))
      end
  end.

(** [main]: the two [except] clauses around the call. *)
Definition main (w : world) (dry_run clear : bool) (d : db) : db * result unit :=
  match migrate_enrichment_data w dry_run clear d with
  | (d', Return _) => (d', Return tt)
  | (d', Raise KeyboardInterrupt) => (d', Raise (SystemExit 1))
  | (d', Raise (PyException _)) => (d', Raise (SystemExit 1))
  | (d', Raise (SystemExit code)) => (d', Raise (SystemExit code))
  end.
End WithDatabase.

End MigrateEnrichment.

(** * Batches of upserts *)

Module Upsert.
Import Pg.

(** The rows are of type [X], the parameter sets of type [E]; a parameter
    set [e] is in conflict with the rows [x] for which [cf e x]. *)

(** The row a parameter set is in conflict with: the first one. *)
Definition hit {X E : Type} (cf : E -> X -> bool) (e : E) (rs : list X) : option X :=
  List.find (cf e) rs.

(** The statement run for each parameter set of the batch, in order. *)
Fixpoint pass {X E : Type} (cf : E -> X -> bool) (upd : E -> X -> X) (new : E -> X)
         (batch : list E) (rs : list X) : list X :=
  match batch with
  | [] => rs
  | e :: batch' => pass cf upd new batch' (upsert_list (cf e) (upd e) (new e) rs)
  end.

(** The row of [e] already holds what [upd] writes, up to [R]. *)
Definition settled {X E : Type} (cf : E -> X -> bool) (upd : E -> X -> X)
           (R : X -> X -> Prop) (e : E) (rs : list X) : Prop :=
  exists x, hit cf e rs = Some x /\ R (upd e x) x.

(** The notions above for a statement [st] on a table [t]. *)
Definition cf_values (st : upsert_stmt) (values old : gmap string sqlval) : bool :=
  conflicts (conflict_target st) old values.

Definition same_key (st : upsert_stmt) (v v' : gmap string sqlval) : bool :=
  bool_decide (key_of (conflict_target st) v = key_of (conflict_target st) v').

Definition key_not_null (st : upsert_stmt) (v : gmap string sqlval) : bool :=
  forallb (fun o => match o with Some _ => true | None => false end)
          (key_of (conflict_target st) v).

Definition upd_at (st : upsert_stmt) (t : table) (now : Z) (values : gmap string sqlval)
  : gmap string sqlval -> gmap string sqlval :=
  do_update st now (excluded_row t st now values).

Definition new_at (st : upsert_stmt) (t : table) (now : Z) (values : gmap string sqlval)
  : gmap string sqlval :=
  excluded_row t st now values.

(** Two rows agree outside the columns set to CURRENT_TIMESTAMP. *)
Definition same_but_timestamps (st : upsert_stmt) (x y : gmap string sqlval) : Prop :=
  forall c, c ∉ set_current_timestamp st -> x !! c = y !! c.

(** The batch on the rows of the table. *)
Definition batch_rows (st : upsert_stmt) (t : table) (now : Z)
           (batch : list (gmap string sqlval)) (rs : list (gmap string sqlval))
  : list (gmap string sqlval) :=
  pass (cf_values st) (upd_at st t now) (new_at st t now) batch rs.

End Upsert.

(** * Vocabulary of the statements *)

(** An object passes validation: its term identifier and its term
    description are present and true in Python's sense (for text: not
    empty). *)
Definition has_term_and_description (item : list (string * Py.pyval)) : bool :=
  Py.truthy (Py.dict_get item "#term ID" (Py.PStr ""))
  && Py.truthy (Py.dict_get item "term description" (Py.PStr "")).

(** A connection just opened on the database [d]. *)
Definition fresh_conn (d : Pg.db) : Pg.conn := {| Pg.committed := d; Pg.pending := d |}.

(** The rows of the table [enrichment_data]. *)
Definition enrichment_rows (d : Pg.db) : list (gmap string Pg.sqlval) :=
  match d !! "enrichment_data" with
  | Some t => Pg.rows t
  | None => []
  end.

(** Two rows hold the same value in every column but [updated_at]. *)
Definition same_except_updated_at (x y : gmap string Pg.sqlval) : Prop :=
  forall c, c <> "updated_at" -> x !! c = y !! c.

(** The same input at another time. *)
Definition set_now (w : MigrateEnrichment.world) (n : Z) : MigrateEnrichment.world :=
  {| MigrateEnrichment.source := MigrateEnrichment.source w;
     MigrateEnrichment.load := MigrateEnrichment.load w;
     MigrateEnrichment.can_connect := MigrateEnrichment.can_connect w;
     MigrateEnrichment.now := n |}.

(** * Example data *)

Definition shef_header : list string :=
  [ "gene_id"; "gene_name"; "SHEF1"; "SHEF1_readcount"; "SHEF1_fpkm";
    "log2FoldChange"; "pvalue"; "padj"; "-log10(padj)" ].

Definition ribosome : list (string * Py.pyval) :=
  [ ("#term ID", Py.PStr "mmu03010"); ("term description", Py.PStr "Ribosome") ].

Definition kegg_file : MigrateEnrichment.file_info :=
  {| MigrateEnrichment.fi_path := ("eIF5A_DDvsWT_EC", "enrichment.KEGG.json");
     MigrateEnrichment.fi_comparison := "eIF5A_DDvsWT_EC";
     MigrateEnrichment.fi_database := "KEGG" |}.

Definition one_file_world (outcome : MigrateEnrichment.load_outcome) : MigrateEnrichment.world :=
  {| MigrateEnrichment.source :=
       MigrateEnrichment.SourceEntries
         [ {| MigrateEnrichment.entry_name := "eIF5A_DDvsWT_EC";
              MigrateEnrichment.is_dir := true;
              MigrateEnrichment.file_names := ["enrichment.KEGG.json"] |} ];
     MigrateEnrichment.load := fun _ => outcome;
     MigrateEnrichment.can_connect := true;
     MigrateEnrichment.now := 1 |}.

Definition two_file_world (kegg rctm : MigrateEnrichment.load_outcome)
  : MigrateEnrichment.world :=
  {| MigrateEnrichment.source :=
       MigrateEnrichment.SourceEntries
         [ {| MigrateEnrichment.entry_name := "eIF5A_DDvsWT_EC";
              MigrateEnrichment.is_dir := true;
              MigrateEnrichment.file_names :=
                ["enrichment.KEGG.json"; "enrichment.RCTM.json"] |} ];
     MigrateEnrichment.load :=
       fun path => if String.eqb (snd path) "enrichment.KEGG.json" then kegg else rctm;
     MigrateEnrichment.can_connect := true;
     MigrateEnrichment.now := 1 |}.

Definition rctm_file : MigrateEnrichment.file_info :=
  {| MigrateEnrichment.fi_path := ("eIF5A_DDvsWT_EC", "enrichment.RCTM.json");
     MigrateEnrichment.fi_comparison := "eIF5A_DDvsWT_EC";
     MigrateEnrichment.fi_database := "Reactome" |}.

Definition empty_source_world : MigrateEnrichment.world :=
  {| MigrateEnrichment.source :=
       MigrateEnrichment.SourceEntries
         [ {| MigrateEnrichment.entry_name := "eIF5A_DDvsWT_EC";
              MigrateEnrichment.is_dir := true;
              MigrateEnrichment.file_names := ["notes.txt"] |} ];
     MigrateEnrichment.load := fun _ => MigrateEnrichment.ReadError;
     MigrateEnrichment.can_connect := true;
     MigrateEnrichment.now := 1 |}.

Definition notes_df : MigrateRnaSeq.DataFrame :=
  {| MigrateRnaSeq.df_columns := ["gene_id"; "gene_name"; "notes"];
     MigrateRnaSeq.df_values := [[Py.PStr "ENSG01"; Py.PStr "Abc"; Py.PStr "remark"]] |}.

Definition notes_world : MigrateRnaSeq.world :=
  {| MigrateRnaSeq.csv := fun _ => MigrateRnaSeq.Csv notes_df;
     MigrateRnaSeq.can_connect := true;
     MigrateRnaSeq.available := ["cmp"];
     MigrateRnaSeq.now := 1 |}.

Definition c2_table : Pg.table :=
  {| Pg.schema := SchemaDefinitions.table_column_names (Some ["gene_id"; "gene_name"; "SHEF1"]);
     Pg.not_null := ["gene_id"];
     Pg.ts_default := ["created_at"];
     Pg.rows :=
       [ Pg.bind_params ["gene_id"; "gene_name"; "shef1"; "padj"]
           [Py.PStr "ENSG01"; Py.PStr "Abc"; Py.PFloat Py.float_one; Py.PFloat Py.float_zero] ] |}.

Definition c2_values : gmap string Pg.sqlval :=
  Pg.bind_params ["gene_id"; "gene_name"; "shef1"; "padj"]
    [Py.PStr "ENSG01"; Py.PStr "Abd"; Py.PFloat Py.float_zero; Py.PFloat Py.float_one].

Definition c2_after : Pg.db :=
  match Pg.exec_upsert (fun _ _ => true)
          (SchemaDefinitions.insert_stmt "cmp" ["gene_id"; "gene_name"; "shef1"; "padj"])
          2 c2_values {[ "cmp" := c2_table ]} with
  | Some d => d
  | None => ∅
  end.

(** The checks of the definition of [enrichment_data] taken for the
    examples: the gene count is an integer. *)
Definition accepts_integer_count (_ : string) (values : gmap string Pg.sqlval) : bool :=
  match values !! "genes_mapped" with
  | Some (Pg.Param (Py.PInt _)) => true
  | None => true
  | _ => false
  end.

Definition enrichment_table : Pg.table :=
  {| Pg.schema := (Pg.insert_cols MigrateEnrichment.insert_query
                   ++ ["id"; "created_at"; "updated_at"])%list;
     Pg.not_null := ["comparison"; "database"; "term_id"];
     Pg.ts_default := ["created_at"; "updated_at"];
     Pg.rows := [] |}.

Definition translation_bad_count : list (string * Py.pyval) :=
  [ ("#term ID", Py.PStr "MMU-72766"); ("term description", Py.PStr "Translation");
    ("genes mapped", Py.PStr "many") ].

Definition kegg_and_bad_rctm : MigrateEnrichment.world :=
  two_file_world (MigrateEnrichment.Loaded (Py.PList [Py.PDict ribosome]))
                 (MigrateEnrichment.Loaded (Py.PList [Py.PDict translation_bad_count])).

Definition two_comparisons : MigrateRnaSeq.world :=
  {| MigrateRnaSeq.csv :=
       fun name =>
         if String.eqb name "A_vs_B" then MigrateRnaSeq.Csv notes_df
         else MigrateRnaSeq.Csv
                {| MigrateRnaSeq.df_columns := ["gene_id"; "gene_name"];
                   MigrateRnaSeq.df_values := [[Py.PStr "ENSG02"; Py.PStr "Def"]] |};
     MigrateRnaSeq.can_connect := true;
     MigrateRnaSeq.available := ["A_vs_B"; "C_vs_D"];
     MigrateRnaSeq.now := 1 |}.

Definition at_time (n : Z) : MigrateEnrichment.world :=
  {| MigrateEnrichment.source := MigrateEnrichment.SourceEntries [];
     MigrateEnrichment.load := fun _ => MigrateEnrichment.ReadError;
     MigrateEnrichment.can_connect := true;
     MigrateEnrichment.now := n |}.

Definition ribosome_reloaded : list (string * Py.pyval) :=
  [ ("#term ID", Py.PStr "mmu03010"); ("term description", Py.PStr "Ribosome biogenesis");
    ("genes mapped", Py.PInt 73) ].

Definition c4_loaded : Pg.db :=
  Pg.committed
    (fst (MigrateEnrichment.insert_enrichment_data accepts_integer_count (at_time 1)
            [MigrateEnrichment.make_record "eIF5A_DDvsWT_EC" "KEGG" ribosome]
            (fresh_conn {[ "enrichment_data" := enrichment_table ]}))).

Definition c4_table : Pg.table := default enrichment_table (c4_loaded !! "enrichment_data").

Definition c4_old_row : gmap string Pg.sqlval :=
  match Pg.rows c4_table with
  | [x] => x
  | _ => ∅
  end.

Definition c4_reloaded : Pg.db :=
  match Pg.exec_upsert accepts_integer_count MigrateEnrichment.insert_query 2
          (MigrateEnrichment.record_values
             (MigrateEnrichment.make_record "eIF5A_DDvsWT_EC" "KEGG" ribosome_reloaded))
          c4_loaded with
  | Some d => d
  | None => ∅
  end.

Definition shef_df : MigrateRnaSeq.DataFrame :=
  {| MigrateRnaSeq.df_columns := ["gene_id"; "gene_name"; "SHEF1"; "SHEF1_readcount"; "padj"];
     MigrateRnaSeq.df_values :=
       [ [Py.PStr "ENSG01"; Py.PStr "Abc"; Py.PFloat Py.float_one; Py.PInt 12; Py.PNone];
         [Py.PStr "ENSG02"; Py.PStr "Def"; Py.PFloat Py.float_zero; Py.PInt 0;
          Py.PFloat Py.float_one] ] |}.

Definition clash_df : MigrateRnaSeq.DataFrame :=
  {| MigrateRnaSeq.df_columns := ["gene_id"; "Gene_Name"; "gene_name"];
     MigrateRnaSeq.df_values := [[Py.PStr "ENSG01"; Py.PStr "Abc"; Py.PStr "abc"]] |}.

Definition one_csv_world (df : MigrateRnaSeq.DataFrame) : MigrateRnaSeq.world :=
  {| MigrateRnaSeq.csv := fun _ => MigrateRnaSeq.Csv df;
     MigrateRnaSeq.can_connect := true;
     MigrateRnaSeq.available := ["A_vs_B"];
     MigrateRnaSeq.now := 7 |}.

Definition missing_csv_world (names : list string) : MigrateRnaSeq.world :=
  {| MigrateRnaSeq.csv := fun _ => MigrateRnaSeq.CsvMissing;
     MigrateRnaSeq.can_connect := true;
     MigrateRnaSeq.available := names;
     MigrateRnaSeq.now := 1 |}.

(** * Properties *)

(** ** Lower case *)

Section LowerFacts.
Import PyStr.

Lemma lower_ascii_not_upper (c : ascii) : is_upper (lower_ascii c) = false.
Proof. destruct c as [[] [] [] [] [] [] [] []]; reflexivity. Qed.

Lemma lower_ascii_fixed (c : ascii) : is_upper c = false -> lower_ascii c = c.
Proof. unfold lower_ascii. intros ->. reflexivity. Qed.

Lemma all_lower_lower (s : string) : all_lower (lower s) = true.
Proof.
  induction s as [|c s IH]; simpl; [reflexivity|].
  rewrite lower_ascii_not_upper, IH. reflexivity.
Qed.

Lemma lower_fixed (s : string) : all_lower s = true -> lower s = s.
Proof.
  induction s as [|c s IH]; simpl; [reflexivity|].
  intros H. apply andb_prop in H as [Hc Hs].
  apply negb_true_iff in Hc. rewrite (lower_ascii_fixed c Hc), (IH Hs). reflexivity.
Qed.

Lemma lower_idempotent (s : string) : lower (lower s) = lower s.
Proof. apply lower_fixed, all_lower_lower. Qed.

Lemma lower_not_mixed_case (s : string) : lower s <> "log2FoldChange".
Proof.
  intros H. pose proof (all_lower_lower s) as L. rewrite H in L. discriminate L.
Qed.
End LowerFacts.

(** ** Column-name canonicalization *)

Section ColumnMapping.
Import PyStr MigrateRnaSeq.

Lemma column_mapping_other (col : string) :
  col <> "log2FoldChange" -> col <> "-log10(padj)" -> column_mapping col = lower col.
Proof.
  intros H1 H2. unfold column_mapping.
  destruct (String.eqb_spec col "log2FoldChange"); [contradiction|].
  destruct (String.eqb_spec col "-log10(padj)"); [contradiction|]. reflexivity.
Qed.

Lemma column_mapping_all_lower (col : string) : all_lower (column_mapping col) = true.
Proof.
  unfold column_mapping.
  destruct (String.eqb_spec col "log2FoldChange"); [reflexivity|].
  destruct (String.eqb_spec col "-log10(padj)"); [reflexivity|].
  apply all_lower_lower.
Qed.

(** Mapping twice is mapping once, except for a header that is not
    ["-log10(padj)"] itself and whose lower-case form is. *)
Lemma column_mapping_twice (col : string) :
  column_mapping (column_mapping col) = column_mapping col
  <-> (lower col = "-log10(padj)" -> col = "-log10(padj)").
Proof.
  destruct (String.eqb_spec col "log2FoldChange") as [->|N1].
  { split; [intros _ H; discriminate H | reflexivity]. }
  destruct (String.eqb_spec col "-log10(padj)") as [->|N2].
  { split; reflexivity. }
  rewrite (column_mapping_other col N1 N2).
  destruct (String.eqb_spec (lower col) "-log10(padj)") as [E|N3].
  - rewrite E. split; [intros H; discriminate H | intros H; elim N2; exact (H eq_refl)].
  - rewrite (column_mapping_other _ (lower_not_mixed_case col) N3), lower_idempotent.
    split; [intros _ H; contradiction | reflexivity].
Qed.
End ColumnMapping.



(** C10, as stated, fails: the header [-LOG10(PADJ)] is mapped to
    [-log10(padj)], and that name to [log10_padj]. *)
Lemma C10_counterexample :
  MigrateRnaSeq.column_mapping "-LOG10(PADJ)" = "-log10(padj)"
  /\ MigrateRnaSeq.column_mapping (MigrateRnaSeq.column_mapping "-LOG10(PADJ)") = "log10_padj"
  /\ MigrateRnaSeq.map_csv_to_database_columns
       (MigrateRnaSeq.map_csv_to_database_columns
          {| MigrateRnaSeq.df_columns := ["gene_id"; "-LOG10(PADJ)"];
             MigrateRnaSeq.df_values := [] |})
     <> MigrateRnaSeq.map_csv_to_database_columns
          {| MigrateRnaSeq.df_columns := ["gene_id"; "-LOG10(PADJ)"];
             MigrateRnaSeq.df_values := [] |}.
Proof.
  split; [reflexivity|]. split; [reflexivity|]. intros H. discriminate H.
Qed.

(** C10, amended.  Applying the mapping twice to a header list yields the
    same names as applying it once exactly when no header other than
    [-log10(padj)] itself has [-log10(padj)] as its lower-case form. *)
Theorem C10_column_mapping_idempotent_iff :
  forall df : MigrateRnaSeq.DataFrame,
    MigrateRnaSeq.map_csv_to_database_columns (MigrateRnaSeq.map_csv_to_database_columns df)
    = MigrateRnaSeq.map_csv_to_database_columns df
    <-> Forall (fun col => PyStr.lower col = "-log10(padj)" -> col = "-log10(padj)")
               (MigrateRnaSeq.df_columns df).
Proof.
  intros [cols vals]. unfold MigrateRnaSeq.map_csv_to_database_columns. simpl.
  split.
  - intros H. injection H as H. induction cols as [|c cols IH]; [constructor|].
    simpl in H. injection H as Hc Hcols. constructor.
    + apply column_mapping_twice, Hc.
    + apply IH, Hcols.
  - intros H. f_equal. induction H as [|c cols Hc _ IH]; [reflexivity|].
    simpl. f_equal; [apply column_mapping_twice, Hc | exact IH].
Qed.

Lemma C10_witness :
  MigrateRnaSeq.map_csv_to_database_columns
    (MigrateRnaSeq.map_csv_to_database_columns
       {| MigrateRnaSeq.df_columns := shef_header; MigrateRnaSeq.df_values := [] |})
  = MigrateRnaSeq.map_csv_to_database_columns
      {| MigrateRnaSeq.df_columns := shef_header; MigrateRnaSeq.df_values := [] |}.
Proof.
  apply (proj2 (C10_column_mapping_idempotent_iff
                  {| MigrateRnaSeq.df_columns := shef_header;
                     MigrateRnaSeq.df_values := [] |})).
  unfold shef_header. simpl.
  repeat (constructor; [intros H; first [discriminate H | reflexivity]|]).
  constructor.
Defined.

(** ** Enrichment parsing *)

Section Parsing.
Import Py MigrateEnrichment.

Lemma dict_get_absent (d : list (string * pyval)) (key : string) (default : pyval) :
  dict_has d key = false -> dict_get d key default = default.
Proof.
  induction d as [|[k v] d IH]; simpl; [reflexivity|].
  destruct (String.eqb k key); simpl; [discriminate | exact IH].
Qed.

Lemma truthy_not_empty (v : pyval) : truthy v = true -> v <> PStr "" /\ v <> PNone.
Proof. intros H; split; intros ->; discriminate H. Qed.

Lemma parse_item_dict (comparison database : string) (d : list (string * pyval)) :
  parse_item comparison database (PDict d)
  = if has_term_and_description d then Some (make_record comparison database d) else None.
Proof.
  unfold parse_item, has_term_and_description. simpl.
  destruct (truthy (dict_get d "#term ID" (PStr "")));
    destruct (truthy (dict_get d "term description" (PStr ""))); reflexivity.
Qed.

Lemma parse_items_objects (comparison database : string)
      (objects : list (list (string * pyval))) :
  parse_items comparison database (List.map PDict objects)
  = List.map (make_record comparison database)
             (List.filter has_term_and_description objects).
Proof.
  induction objects as [|d objects IH]; [reflexivity|].
  cbn [List.map parse_items List.filter]. rewrite parse_item_dict.
  destruct (has_term_and_description d); cbn [List.map]; rewrite IH; reflexivity.
Qed.

Lemma parse_items_valid (comparison database : string) (data : list pyval) :
  Forall (fun r => truthy (term_id r) = true /\ truthy (term_description r) = true)
         (parse_items comparison database data).
Proof.
  induction data as [|item data IH]; [constructor|].
  cbn [parse_items]. destruct (parse_item comparison database item) as [r|] eqn:E; [|exact IH].
  constructor; [|exact IH].
  destruct item; try discriminate E. unfold parse_item in E.
  destruct (truthy (term_id (make_record comparison database d))) eqn:E1;
    destruct (truthy (term_description (make_record comparison database d))) eqn:E2;
    simpl in E; try discriminate E.
  injection E as <-. split; assumption.
Qed.

Lemma filter_split_length {A} (p : A -> bool) (l : list A) :
  length (List.filter p l) = length l - length (List.filter (fun x => negb (p x)) l)
  /\ length (List.filter (fun x => negb (p x)) l) <= length l.
Proof.
  induction l as [|x l [IH1 IH2]]; simpl; [split; lia|].
  destruct (p x); simpl; split; lia.
Qed.

Lemma parse_all_skip (w : world) (fi : file_info) (before after : list file_info) :
  parse_enrichment_file w fi = Return [] ->
  parse_all w (before ++ fi :: after) = parse_all w (before ++ after).
Proof.
  intros Hfi. induction before as [|f before IH]; simpl.
  - rewrite Hfi. simpl. destruct (parse_all w after); reflexivity.
  - rewrite IH. reflexivity.
Qed.
End Parsing.

(** C5.  When a file holds a list of objects, parsing it returns records
    whose term identifier and term description are not empty (true in
    Python's sense, hence neither the empty text nor [None]); the records are
    those of the objects that pass the check, in their order, so an object
    that fails it has no record; and the number of records is the number of
    objects minus the number of objects dropped. *)
Theorem C5_parsed_records_valid :
  forall (w : MigrateEnrichment.world) (fi : MigrateEnrichment.file_info)
         (objects : list (list (string * Py.pyval))),
    MigrateEnrichment.load w (MigrateEnrichment.fi_path fi)
    = MigrateEnrichment.Loaded (Py.PList (List.map Py.PDict objects)) ->
    exists records,
      MigrateEnrichment.parse_enrichment_file w fi = Py.Return records
      /\ Forall (fun r =>
                   Py.truthy (MigrateEnrichment.term_id r) = true
                   /\ Py.truthy (MigrateEnrichment.term_description r) = true
                   /\ MigrateEnrichment.term_id r <> Py.PStr ""
                   /\ MigrateEnrichment.term_description r <> Py.PStr "") records
      /\ records
         = List.map (MigrateEnrichment.make_record (MigrateEnrichment.fi_comparison fi)
                                                   (MigrateEnrichment.fi_database fi))
                    (List.filter has_term_and_description objects)
      /\ length records
         = length objects
           - length (List.filter (fun d => negb (has_term_and_description d)) objects).
Proof.
  intros w fi objects Hload.
  exists (MigrateEnrichment.parse_items (MigrateEnrichment.fi_comparison fi)
                                        (MigrateEnrichment.fi_database fi)
                                        (List.map Py.PDict objects)).
  split; [unfold MigrateEnrichment.parse_enrichment_file; rewrite Hload; reflexivity|].
  split.
  - eapply Forall_impl; [apply parse_items_valid|].
    intros r [H1 H2]. pose proof (truthy_not_empty _ H1) as [? _].
    pose proof (truthy_not_empty _ H2) as [? _]. auto.
  - split; [apply parse_items_objects|].
    rewrite parse_items_objects, length_map. apply filter_split_length.
Qed.

Lemma C5_witness :
  exists records,
    MigrateEnrichment.parse_enrichment_file
      (one_file_world
         (MigrateEnrichment.Loaded
            (Py.PList (List.map Py.PDict
                         [ ribosome; [("#term ID", Py.PStr "mmu00001")]; [] ])))) kegg_file
    = Py.Return records
    /\ length records = 1.
Proof.
  destruct (C5_parsed_records_valid
              (one_file_world
                 (MigrateEnrichment.Loaded
                    (Py.PList (List.map Py.PDict
                                 [ ribosome; [("#term ID", Py.PStr "mmu00001")]; [] ]))))
              kegg_file
              [ ribosome; [("#term ID", Py.PStr "mmu00001")]; [] ]
              eq_refl) as (records & Hparse & _ & _ & Hlen).
  exists records. split; [exact Hparse | exact Hlen].
Defined.

(** C8.  In the record built for an object, every source key the object
    lacks gives its default: the empty text for the text fields, 0 for the
    gene count, 0.0 for the enrichment score and 1.0 for the false discovery
    rate; and a record that is emitted is that record. *)
Theorem C8_defaults_for_absent_keys :
  forall (comparison database : string) (item : list (string * Py.pyval)),
    let record := MigrateEnrichment.make_record comparison database item in
    (Py.dict_has item "#term ID" = false -> MigrateEnrichment.term_id record = Py.PStr "")
    /\ (Py.dict_has item "term description" = false ->
        MigrateEnrichment.term_description record = Py.PStr "")
    /\ (Py.dict_has item "genes mapped" = false ->
        MigrateEnrichment.genes_mapped record = Py.PInt 0)
    /\ (Py.dict_has item "enrichment score" = false ->
        MigrateEnrichment.enrichment_score record = Py.PFloat Py.float_zero)
    /\ (Py.dict_has item "direction" = false ->
        MigrateEnrichment.direction record = Py.PStr "")
    /\ (Py.dict_has item "false discovery rate" = false ->
        MigrateEnrichment.false_discovery_rate record = Py.PFloat Py.float_one)
    /\ (Py.dict_has item "method" = false -> MigrateEnrichment.method record = Py.PStr "")
    /\ (Py.dict_has item "matching proteins in your input (IDs)" = false ->
        MigrateEnrichment.matching_protein_ids record = Py.PStr "")
    /\ (Py.dict_has item "matching proteins in your input (labels)" = false ->
        MigrateEnrichment.matching_protein_labels record = Py.PStr "")
    /\ (forall r, MigrateEnrichment.parse_item comparison database (Py.PDict item) = Some r ->
                  r = record)
    /\ (forall data, In (Py.PDict item) data ->
                     has_term_and_description item = true ->
                     In record (MigrateEnrichment.parse_items comparison database data)).
Proof.
  intros comparison database item record.
  repeat (split; [intros H; apply (dict_get_absent _ _ _ H)|]).
  split.
  - intros r Hr. rewrite parse_item_dict in Hr.
    destruct (has_term_and_description item); [injection Hr as <-; reflexivity | discriminate Hr].
  - intros data Hin Hok. induction data as [|x data IH]; [destruct Hin|].
    cbn [MigrateEnrichment.parse_items]. destruct Hin as [->|Hin].
    + rewrite parse_item_dict, Hok. left. reflexivity.
    + destruct (MigrateEnrichment.parse_item comparison database x);
        [right|]; apply IH, Hin.
Qed.

Lemma C8_witness :
  let record := MigrateEnrichment.make_record "eIF5A_DDvsWT_EC" "KEGG" ribosome in
  MigrateEnrichment.genes_mapped record = Py.PInt 0
  /\ MigrateEnrichment.enrichment_score record = Py.PFloat Py.float_zero
  /\ MigrateEnrichment.direction record = Py.PStr ""
  /\ MigrateEnrichment.false_discovery_rate record = Py.PFloat Py.float_one
  /\ MigrateEnrichment.method record = Py.PStr ""
  /\ MigrateEnrichment.matching_protein_ids record = Py.PStr ""
  /\ MigrateEnrichment.matching_protein_labels record = Py.PStr ""
  /\ In record (MigrateEnrichment.parse_items "eIF5A_DDvsWT_EC" "KEGG" [Py.PDict ribosome]).
Proof.
  destruct (C8_defaults_for_absent_keys "eIF5A_DDvsWT_EC" "KEGG" ribosome)
    as (_ & _ & G & S & D & F & M & I & L & _ & P).
  intros record.
  split; [exact (G eq_refl)|]. split; [exact (S eq_refl)|]. split; [exact (D eq_refl)|].
  split; [exact (F eq_refl)|]. split; [exact (M eq_refl)|]. split; [exact (I eq_refl)|].
  split; [exact (L eq_refl)|].
  apply P; [left; reflexivity | reflexivity].
Defined.

(** C9.  A file whose content cannot be decoded, cannot be read, or does
    not hold a list is parsed to the empty record list, without an exception;
    and the records collected from a list of files are those collected
    without that file: the other files are parsed as before. *)
Theorem C9_malformed_file_skipped :
  forall (w : MigrateEnrichment.world) (fi : MigrateEnrichment.file_info),
    (MigrateEnrichment.load w (MigrateEnrichment.fi_path fi) = MigrateEnrichment.JSONDecodeError
     \/ MigrateEnrichment.load w (MigrateEnrichment.fi_path fi) = MigrateEnrichment.ReadError
     \/ exists data,
          MigrateEnrichment.load w (MigrateEnrichment.fi_path fi) = MigrateEnrichment.Loaded data
          /\ forall l, data <> Py.PList l) ->
    MigrateEnrichment.parse_enrichment_file w fi = Py.Return []
    /\ forall before after,
         MigrateEnrichment.parse_all w (before ++ fi :: after)%list
         = MigrateEnrichment.parse_all w (before ++ after)%list.
Proof.
  intros w fi H.
  assert (Hfi : MigrateEnrichment.parse_enrichment_file w fi = Py.Return []).
  { unfold MigrateEnrichment.parse_enrichment_file.
    destruct H as [-> | [-> | (data & -> & Hdata)]]; try reflexivity.
    destruct data; try reflexivity. elim (Hdata l). reflexivity. }
  split; [exact Hfi|]. intros before after. apply parse_all_skip, Hfi.
Qed.

Lemma C9_witness :
  MigrateEnrichment.parse_enrichment_file
    (two_file_world (MigrateEnrichment.Loaded (Py.PList [Py.PDict ribosome]))
                    MigrateEnrichment.JSONDecodeError) rctm_file
  = Py.Return []
  /\ MigrateEnrichment.parse_all
       (two_file_world (MigrateEnrichment.Loaded (Py.PList [Py.PDict ribosome]))
                       MigrateEnrichment.JSONDecodeError) [rctm_file; kegg_file]
     = Py.Return [MigrateEnrichment.make_record "eIF5A_DDvsWT_EC" "KEGG" ribosome].
Proof.
  destruct (C9_malformed_file_skipped
              (two_file_world (MigrateEnrichment.Loaded (Py.PList [Py.PDict ribosome]))
                              MigrateEnrichment.JSONDecodeError)
              rctm_file (or_introl eq_refl)) as [Hfile Hall].
  split; [exact Hfile|].
  exact (eq_trans (Hall [] [kegg_file]) eq_refl).
Defined.

(** ** Exit status of the enrichment loader *)

Section ExitStatus.
Import Py MigrateEnrichment.
Variable accepts : string -> gmap string Pg.sqlval -> bool.

Lemma main_status (w : world) (dry_run clear : bool) (d : Pg.db) :
  exit_status (snd (main accepts w dry_run clear d))
  = match snd (migrate_enrichment_data accepts w dry_run clear d) with
    | Return _ => 0%Z
    | Raise (SystemExit code) => code
    | Raise _ => 1%Z
    end.
Proof.
  unfold main. destruct (migrate_enrichment_data accepts w dry_run clear d) as [d' [r|[]]];
    reflexivity.
Qed.
End ExitStatus.

(** C7.  The status with which the enrichment loader ends, cause by cause:
    1 when the source directory is missing, when scanning it raises, and
    whenever the run raises an exception or is interrupted; but 0 when no
    enrichment file is found and when the files yield no valid record. *)
Theorem C7_exit_status_by_cause :
  forall (accepts : string -> gmap string Pg.sqlval -> bool)
         (w : MigrateEnrichment.world) (dry_run clear : bool) (d : Pg.db),
    let run := MigrateEnrichment.migrate_enrichment_data accepts w dry_run clear d in
    let status := Py.exit_status (snd (MigrateEnrichment.main accepts w dry_run clear d)) in
    (MigrateEnrichment.source w = MigrateEnrichment.SourceMissing -> status = 1%Z)
    /\ (snd run = Py.Raise Py.KeyboardInterrupt -> status = 1%Z)
    /\ (forall what, snd run = Py.Raise (Py.PyException what) -> status = 1%Z)
    /\ (MigrateEnrichment.find_enrichment_files (MigrateEnrichment.source w) = Py.Return [] ->
        run = (d, Py.Return MigrateEnrichment.NoFilesFound) /\ status = 0%Z)
    /\ (forall files,
          MigrateEnrichment.find_enrichment_files (MigrateEnrichment.source w)
          = Py.Return files ->
          MigrateEnrichment.parse_all w files = Py.Return [] ->
          status = 0%Z).
Proof.
  intros accepts w dry_run clear d run status. subst status.
  rewrite main_status. fold run. subst run.
  split; [|split; [|split; [|split]]].
  - intros H. unfold MigrateEnrichment.migrate_enrichment_data. rewrite H. reflexivity.
  - intros ->. reflexivity.
  - intros what ->. reflexivity.
  - intros H. unfold MigrateEnrichment.migrate_enrichment_data. rewrite H. split; reflexivity.
  - intros files Hf Hp. unfold MigrateEnrichment.migrate_enrichment_data. rewrite Hf.
    destruct files; [reflexivity|]. rewrite Hp. reflexivity.
Qed.

Lemma C7_witness :
  Py.exit_status
    (snd (MigrateEnrichment.main (fun _ _ => true) empty_source_world false false ∅)) = 0%Z
  /\ Py.exit_status
       (snd (MigrateEnrichment.main (fun _ _ => true)
               (one_file_world (MigrateEnrichment.Loaded (Py.PList []))) false false ∅)) = 0%Z.
Proof.
  split.
  - apply (C7_exit_status_by_cause (fun _ _ => true) empty_source_world false false ∅).
    reflexivity.
  - apply (proj2 (proj2 (proj2 (proj2
             (C7_exit_status_by_cause (fun _ _ => true)
                (one_file_world (MigrateEnrichment.Loaded (Py.PList []))) false false ∅))))
             [kegg_file]); reflexivity.
Defined.

(** ** Columns outside the name patterns *)

Section UnmatchedColumns.
Import PyStr Py Pg SchemaDefinitions MigrateRnaSeq.

Lemma bucket_columns_unmatched (col : string) (l1 l2 : list string) :
  classify col = Unmatched ->
  sample_columns (l1 ++ col :: l2) = sample_columns (l1 ++ l2)
  /\ readcount_columns (l1 ++ col :: l2) = readcount_columns (l1 ++ l2)
  /\ fpkm_columns (l1 ++ col :: l2) = fpkm_columns (l1 ++ l2).
Proof.
  intros H. unfold sample_columns, readcount_columns, fpkm_columns.
  rewrite !flat_map_app. cbn [flat_map]. rewrite H. auto.
Qed.

(** The CREATE TABLE statement is the one of the header without the
    column. *)
Lemma create_table_unmatched (name col : string) (l1 l2 : list string) :
  classify col = Unmatched -> (l1 ++ l2)%list <> [] ->
  get_create_table_sql name (Some (l1 ++ col :: l2)%list)
  = get_create_table_sql name (Some (l1 ++ l2)%list).
Proof.
  intros H Hne. unfold get_create_table_sql. do 2 f_equal.
  assert (E : all_columns (l1 ++ col :: l2) = all_columns (l1 ++ l2)).
  { unfold all_columns. destruct (bucket_columns_unmatched col l1 l2 H) as (-> & -> & ->).
    reflexivity. }
  unfold sql_columns. destruct (l1 ++ l2)%list eqn:E2; [contradiction|].
  destruct (l1 ++ col :: l2)%list eqn:E1; [destruct l1; discriminate E1|].
  rewrite E. reflexivity.
Qed.

Variable accepts : string -> gmap string sqlval -> bool.
Variable ddl_ok : string -> list string -> bool.

Lemma unknown_column_rejected (t : table) (st : upsert_stmt) (now : Z)
      (values : gmap string sqlval) (c : string) :
  In c (insert_cols st) -> ~ In c (schema t) -> stmt_ok accepts t st now values = false.
Proof.
  intros Hin Hout. unfold stmt_ok.
  destruct (known_columns t st) eqn:E; [|reflexivity].
  unfold known_columns in E. rewrite forallb_forall in E.
  specialize (E c (in_or_app _ _ _ (or_introl Hin))).
  apply bool_decide_eq_true in E. apply list_elem_of_In in E. contradiction.
Qed.

Lemma exec_many_unknown_column (st : upsert_stmt) (now : Z)
      (batch : list (gmap string sqlval)) (d : db) (t : table) (c : string) :
  d !! into st = Some t -> In c (insert_cols st) -> ~ In c (schema t) -> batch <> [] ->
  exec_many accepts st now batch d = None.
Proof.
  intros Ht Hin Hout Hne. destruct batch as [|values batch]; [contradiction|].
  cbn [exec_many]. unfold exec_upsert. rewrite Ht.
  rewrite (unknown_column_rejected _ _ _ _ c Hin Hout). reflexivity.
Qed.

(** A header column the created table lacks makes the insertion fail. *)
Lemma migration_fails_on_unknown_column (w : world) (name : string) (d : db)
      (df : DataFrame) (col : string) :
  csv w name = Csv df -> can_connect w = true ->
  ddl_ok name (sql_columns (Some (df_columns df))) = true ->
  d !! name = None -> df_values df <> [] ->
  In col (df_columns df) ->
  ~ In (column_mapping col) (table_column_names (Some (df_columns df))) ->
  snd (migrate_single_comparison accepts ddl_ok w name d) = Raise (SystemExit 1)
  /\ exists t, fst (migrate_single_comparison accepts ddl_ok w name d) !! name = Some t
               /\ rows t = [].
Proof.
  intros Hcsv Hconn Hddl Hnew Hrows Hin Hout.
  unfold migrate_single_comparison. rewrite Hcsv, Hconn.
  unfold seq, read_csv_file. rewrite Hcsv.
  unfold create_comparison_table. rewrite Hddl.
  unfold create_table_if_not_exists. cbn [pending on_pending commit]. rewrite Hnew.
  match goal with |- context [<[name := ?t]> d] => set (T := t) end.
  unfold insert_data_to_database. cbn [pending on_pending commit].
  rewrite (exec_many_unknown_column _ _ _ _ T (column_mapping col)).
  - cbn. rewrite lookup_insert_eq. split; [reflexivity|]. exists T. split; reflexivity.
  - apply lookup_insert_eq.
  - cbn. apply in_map, Hin.
  - exact Hout.
  - cbn. destruct (df_values df); [contradiction | discriminate].
Qed.
End UnmatchedColumns.



(** ** The upsert statement on one table *)

Section UpsertFacts.
Import Py Pg.

Lemma lookup_foldr_insert (v : sqlval) (l : list string) (r : gmap string sqlval) (c : string) :
  foldr (fun c r => <[c := v]> r) r l !! c
  = if bool_decide (c ∈ l) then Some v else r !! c.
Proof.
  induction l as [|c' l IH]; cbn [foldr].
  - rewrite bool_decide_eq_false_2; [reflexivity | apply not_elem_of_nil].
  - destruct (decide (c' = c)) as [->|Hne].
    + rewrite lookup_insert_eq, bool_decide_eq_true_2; [reflexivity | left].
    + rewrite lookup_insert_ne, IH by exact Hne.
      rewrite (bool_decide_ext (c ∈ c' :: l) (c ∈ l)); [reflexivity|].
      rewrite elem_of_cons. intuition congruence.
Qed.

Lemma lookup_foldr_partial_alter (f : string -> option sqlval) (l : list string)
      (r : gmap string sqlval) (c : string) :
  foldr (fun c r => partial_alter (fun _ => f c) c r) r l !! c
  = if bool_decide (c ∈ l) then f c else r !! c.
Proof.
  induction l as [|c' l IH]; cbn [foldr].
  - rewrite bool_decide_eq_false_2; [reflexivity | apply not_elem_of_nil].
  - destruct (decide (c' = c)) as [->|Hne].
    + rewrite lookup_partial_alter_eq, bool_decide_eq_true_2; [reflexivity | left].
    + rewrite lookup_partial_alter_ne, IH by exact Hne.
      rewrite (bool_decide_ext (c ∈ c' :: l) (c ∈ l)); [reflexivity|].
      rewrite elem_of_cons. intuition congruence.
Qed.

(** The row after DO UPDATE, column by column. *)
Lemma lookup_do_update (st : upsert_stmt) (now : Z) (excl old : gmap string sqlval)
      (c : string) :
  do_update st now excl old !! c
  = if bool_decide (c ∈ set_current_timestamp st) then Some (Timestamp now)
    else if bool_decide (c ∈ set_excluded st) then excl !! c
    else old !! c.
Proof.
  unfold do_update. rewrite lookup_foldr_insert.
  rewrite (lookup_foldr_partial_alter (fun c => excl !! c)). reflexivity.
Qed.

Lemma upsert_list_first {X : Type} (cf : X -> bool) (upd : X -> X) (new : X)
      (before : list X) (old : X) (after : list X) :
  Forall (fun r => cf r = false) before -> cf old = true ->
  upsert_list cf upd new (before ++ old :: after) = (before ++ upd old :: after)%list.
Proof.
  intros Hb Ho. induction Hb as [|x before Hx _ IH]; simpl.
  - rewrite Ho. reflexivity.
  - rewrite Hx, IH. reflexivity.
Qed.

Lemma upsert_list_ext {X : Type} (cf cf' : X -> bool) (upd : X -> X) (new : X) (rs : list X) :
  (forall x, cf x = cf' x) ->
  upsert_list cf upd new rs = upsert_list cf' upd new rs.
Proof.
  intros H. induction rs as [|x rs IH]; simpl; [reflexivity|].
  rewrite <- H, IH. reflexivity.
Qed.

Lemma lookup_bind_params_cons (c : string) (cols : list string) (v : pyval)
      (params : list pyval) (c' : string) :
  bind_params (c :: cols) (v :: params) !! c'
  = if decide (c = c') then adapt v else bind_params cols params !! c'.
Proof.
  cbn [bind_params]. destruct (adapt v) as [x|]; destruct (decide (c = c')) as [->|Hne].
  - apply lookup_insert_eq.
  - apply lookup_insert_ne, Hne.
  - apply lookup_delete_eq.
  - apply lookup_delete_ne, Hne.
Qed.

Lemma lookup_bind_params_None (cols : list string) (params : list pyval) (c : string) :
  c ∉ cols -> bind_params cols params !! c = None.
Proof.
  revert params. induction cols as [|c' cols IH]; intros params Hc; [reflexivity|].
  destruct params as [|v params]; [reflexivity|].
  rewrite lookup_bind_params_cons. apply not_elem_of_cons in Hc as [Hne Hc].
  destruct (decide (c' = c)); [congruence | apply IH, Hc].
Qed.

Lemma lookup_default_row (now : Z) (cols : list string) (c : string) :
  default_row now cols !! c = if bool_decide (c ∈ cols) then Some (Timestamp now) else None.
Proof.
  unfold default_row. induction cols as [|c' cols IH].
  - rewrite bool_decide_eq_false_2; [apply lookup_empty | apply not_elem_of_nil].
  - rewrite fmap_cons, list_to_map_cons. destruct (decide (c' = c)) as [->|Hne].
    + rewrite lookup_insert_eq, bool_decide_eq_true_2; [reflexivity | left].
    + rewrite lookup_insert_ne, IH by exact Hne.
      rewrite (bool_decide_ext (c ∈ c' :: cols) (c ∈ cols)); [reflexivity|].
      rewrite elem_of_cons. intuition congruence.
Qed.

Lemma lookup_excluded_row_any (t : table) (st : upsert_stmt) (now : Z)
      (values : gmap string sqlval) (c : string) :
  excluded_row t st now values !! c
  = match values !! c with
    | Some x => Some x
    | None =>
        if bool_decide (c ∈ List.filter (fun c => negb (bool_decide (c ∈ insert_cols st)))
                                        (ts_default t))
        then Some (Timestamp now) else None
    end.
Proof.
  unfold excluded_row. rewrite lookup_union, lookup_default_row.
  destruct (values !! c); destruct (bool_decide _); reflexivity.
Qed.

(** The proposed row holds the values sent in every listed column. *)
Lemma lookup_excluded_row (t : table) (st : upsert_stmt) (now : Z)
      (values : gmap string sqlval) (c : string) :
  c ∈ insert_cols st -> excluded_row t st now values !! c = values !! c.
Proof.
  intros Hc. rewrite lookup_excluded_row_any. destruct (values !! c); [reflexivity|].
  rewrite bool_decide_eq_false_2; [reflexivity|].
  intros H. apply list_elem_of_In, filter_In in H as [_ H].
  apply negb_true_iff, bool_decide_eq_false in H. contradiction.
Qed.

Lemma key_of_excluded_row (t : table) (st : upsert_stmt) (now : Z)
      (values : gmap string sqlval) (target : list string) :
  target ⊆ insert_cols st ->
  key_of target (excluded_row t st now values) = key_of target values.
Proof.
  intros Hsub. unfold key_of. apply list_fmap_ext. intros i c Hc.
  apply lookup_excluded_row, Hsub. eapply list_elem_of_lookup_2, Hc.
Qed.

Lemma key_of_do_update (st : upsert_stmt) (now : Z) (excl old : gmap string sqlval) :
  Forall (fun c => (c ∉ set_excluded st) /\ (c ∉ set_current_timestamp st))
         (conflict_target st) ->
  key_of (conflict_target st) (do_update st now excl old) = key_of (conflict_target st) old.
Proof.
  intros H. unfold key_of. apply list_fmap_ext. intros i c Hc.
  rewrite Forall_forall in H. destruct (H c) as [H1 H2]; [eapply list_elem_of_lookup_2, Hc|].
  rewrite lookup_do_update, !bool_decide_eq_false_2 by assumption. reflexivity.
Qed.

Lemma forallb_pointwise {A} (f g : A -> bool) (l : list A) :
  (forall x, f x = g x) -> forallb f l = forallb g l.
Proof.
  intros H. induction l as [|x l IH]; simpl; [reflexivity|]. rewrite H, IH. reflexivity.
Qed.

(** Conflict on a single-column key. *)
Lemma conflicts_single (c : string) (old excl : gmap string sqlval) :
  conflicts [c] old excl
  = match excl !! c with
    | Some g => bool_decide (old !! c = Some g)
    | None => false
    end.
Proof.
  unfold conflicts, key_of. cbn [fmap list_fmap forallb].
  destruct (excl !! c) as [g|].
  - rewrite andb_true_r. apply bool_decide_ext. split; congruence.
  - apply andb_false_r.
Qed.

Variable accepts : string -> gmap string sqlval -> bool.

Lemma stmt_ok_now (t : table) (st : upsert_stmt) (now now' : Z) (values : gmap string sqlval) :
  stmt_ok accepts t st now values = stmt_ok accepts t st now' values.
Proof.
  unfold stmt_ok. do 2 f_equal. apply forallb_pointwise. intros c.
  rewrite !lookup_excluded_row_any.
  destruct (values !! c); [reflexivity|].
  destruct (bool_decide (c ∈ List.filter _ (ts_default t))); reflexivity.
Qed.

(** One successful execution on a row in conflict: the first such row is
    updated in place. *)
Lemma exec_upsert_conflict (st : upsert_stmt) (now : Z) (values : gmap string sqlval)
      (d d' : db) (t : table) (before : list (gmap string sqlval))
      (old : gmap string sqlval) (after : list (gmap string sqlval)) :
  d !! into st = Some t ->
  rows t = (before ++ old :: after)%list ->
  Forall (fun r => conflicts (conflict_target st) r (excluded_row t st now values) = false)
         before ->
  conflicts (conflict_target st) old (excluded_row t st now values) = true ->
  exec_upsert accepts st now values d = Some d' ->
  d' = <[into st := with_rows t (before ++ do_update st now (excluded_row t st now values) old
                                        :: after)%list]> d.
Proof.
  intros Ht Hrows Hb Ho Hexec. unfold exec_upsert in Hexec. rewrite Ht in Hexec.
  destruct (stmt_ok accepts t st now values); [|discriminate Hexec].
  injection Hexec as <-. unfold upsert_rows. rewrite Hrows.
  rewrite (upsert_list_first _ _ _ before old after Hb Ho). reflexivity.
Qed.

End UpsertFacts.

(** ** RNA-seq upsert on conflict *)

(** C2.  When the gene identifier of an upserted row is that of a row of
    the table, the statement built by [get_insert_sql] changes that row in
    one column only: [gene_name] takes the value of the new row, and every
    other column of the existing row (the statistics [log2foldchange],
    [pvalue], [padj], [log10_padj], and every sample, read-count and FPKM
    column) keeps its value.  The other rows are not touched. *)
Theorem C2_conflict_refreshes_only_gene_name :
  forall (accepts : string -> gmap string Pg.sqlval -> bool)
         (name : string) (columns : list string) (now : Z)
         (values : gmap string Pg.sqlval) (d d' : Pg.db) (t : Pg.table)
         (before after : list (gmap string Pg.sqlval)) (old : gmap string Pg.sqlval)
         (g : Pg.sqlval),
    let st := SchemaDefinitions.insert_stmt name columns in
    let excluded := Pg.excluded_row t st now values in
    d !! name = Some t ->
    Pg.rows t = (before ++ old :: after)%list ->
    old !! "gene_id" = Some g ->
    excluded !! "gene_id" = Some g ->
    Forall (fun r => r !! "gene_id" <> Some g) before ->
    Pg.exec_upsert accepts st now values d = Some d' ->
    exists new,
      d' !! name = Some (Pg.with_rows t (before ++ new :: after)%list)
      /\ new !! "gene_name" = excluded !! "gene_name"
      /\ (forall c, c <> "gene_name" -> new !! c = old !! c)
      /\ new !! "log2foldchange" = old !! "log2foldchange"
      /\ new !! "pvalue" = old !! "pvalue"
      /\ new !! "padj" = old !! "padj"
      /\ new !! "log10_padj" = old !! "log10_padj".
Proof.
  intros accepts name columns now values d d' t before after old g st excluded
         Ht Hrows Hold Hnew Hbefore Hexec.
  assert (Hupd : forall c, c <> "gene_name" ->
                           Pg.do_update st now excluded old !! c = old !! c).
  { intros c Hc. rewrite lookup_do_update.
    change (Pg.set_current_timestamp st) with (@nil string).
    change (Pg.set_excluded st) with ["gene_name"].
    rewrite bool_decide_eq_false_2 by apply not_elem_of_nil.
    rewrite bool_decide_eq_false_2; [reflexivity|].
    intros H. apply list_elem_of_singleton in H. contradiction. }
  exists (Pg.do_update st now excluded old).
  split; [|split; [|split; [exact Hupd|]]].
  - rewrite (exec_upsert_conflict accepts st now values d d' t before old after Ht Hrows);
      [apply lookup_insert_eq | | | exact Hexec];
      change (Pg.conflict_target st) with ["gene_id"].
    + eapply Forall_impl; [exact Hbefore|]. intros r Hr.
      rewrite conflicts_single. fold excluded. rewrite Hnew.
      apply bool_decide_eq_false, Hr.
    + rewrite conflicts_single. fold excluded. rewrite Hnew.
      apply bool_decide_eq_true, Hold.
  - rewrite lookup_do_update. reflexivity.
  - repeat split; apply Hupd; discriminate.
Qed.

Lemma C2_witness :
  exists new,
    c2_after !! "cmp" = Some (Pg.with_rows c2_table [new])
    /\ new !! "gene_name" = Some (Pg.Param (Py.PStr "Abd"))
    /\ new !! "shef1" = Some (Pg.Param (Py.PFloat Py.float_one))
    /\ new !! "padj" = Some (Pg.Param (Py.PFloat Py.float_zero)).
Proof.
  destruct (C2_conflict_refreshes_only_gene_name
              (fun _ _ => true) "cmp" ["gene_id"; "gene_name"; "shef1"; "padj"] 2
              c2_values {[ "cmp" := c2_table ]} c2_after c2_table [] []
              (Pg.bind_params ["gene_id"; "gene_name"; "shef1"; "padj"]
                 [Py.PStr "ENSG01"; Py.PStr "Abc"; Py.PFloat Py.float_one;
                  Py.PFloat Py.float_zero])
              (Pg.Param (Py.PStr "ENSG01")))
    as (new & Hrow & Hname & Hother & _ & _ & Hpadj & _).
  - reflexivity.
  - reflexivity.
  - reflexivity.
  - reflexivity.
  - constructor.
  - vm_compute. reflexivity.
  - exists new. split; [exact Hrow|].
    split; [rewrite Hname; reflexivity|].
    split; [rewrite Hother by discriminate; reflexivity | rewrite Hpadj; reflexivity].
Defined.

(** ** Database errors during insertion *)

(** C6, amended.  When a statement of the insertion raises a database
    error, the transaction is rolled back: what was committed stays and
    nothing is pending.  For the enrichment loader the unit is the record set
    of the whole run (the records of all files go into one transaction): the
    insertion returns 0 and the run reports 0 inserted records, the database
    being the one before the run.  For the RNA-seq loader the unit is the
    insertion of one comparison, which does not report success. *)
Theorem C6_error_rolls_back_the_unit :
  forall accepts : string -> gmap string Pg.sqlval -> bool,
    (forall (w : MigrateEnrichment.world) (records : list MigrateEnrichment.EnrichmentRecord)
            (c : Pg.conn),
        Pg.exec_many accepts MigrateEnrichment.insert_query (MigrateEnrichment.now w)
                     (MigrateEnrichment.record_values <$> records) (Pg.pending c) = None ->
        MigrateEnrichment.insert_enrichment_data accepts w records c = (Pg.rollback c, 0)
        /\ Pg.committed (Pg.rollback c) = Pg.committed c
        /\ Pg.pending (Pg.rollback c) = Pg.committed c)
    /\ (forall (w : MigrateEnrichment.world) (d : Pg.db)
               (files : list MigrateEnrichment.file_info)
               (records : list MigrateEnrichment.EnrichmentRecord),
           MigrateEnrichment.find_enrichment_files (MigrateEnrichment.source w)
           = Py.Return files ->
           MigrateEnrichment.parse_all w files = Py.Return records ->
           MigrateEnrichment.can_connect w = true ->
           Pg.exec_many accepts MigrateEnrichment.insert_query (MigrateEnrichment.now w)
                        (MigrateEnrichment.record_values <$> records) d = None ->
           MigrateEnrichment.migrate_enrichment_data accepts w false false d
           = (d, Py.Return (MigrateEnrichment.Inserted 0)))
    /\ (forall (w : MigrateRnaSeq.world) (df : MigrateRnaSeq.DataFrame) (name : string)
               (c : Pg.conn),
           Pg.exec_many accepts
                        (SchemaDefinitions.insert_stmt name (MigrateRnaSeq.df_columns df))
                        (MigrateRnaSeq.now w)
                        (Pg.bind_params (MigrateRnaSeq.df_columns df)
                           <$> MigrateRnaSeq.df_values df)
                        (Pg.pending c) = None ->
           fst (MigrateRnaSeq.insert_data_to_database accepts w df name c) = Pg.rollback c
           /\ snd (MigrateRnaSeq.insert_data_to_database accepts w df name c) <> Py.Return tt
           /\ Pg.committed (Pg.rollback c) = Pg.committed c).
Proof.
  intros accepts. split; [|split].
  - intros w records c H. unfold MigrateEnrichment.insert_enrichment_data.
    destruct records as [|r records]; [discriminate H|]. rewrite H. auto.
  - intros w d files records Hfiles Hparse Hconn H.
    unfold MigrateEnrichment.migrate_enrichment_data. rewrite Hfiles.
    destruct files as [|fi files].
    { simpl in Hparse. injection Hparse as <-. discriminate H. }
    rewrite Hparse. destruct records as [|r records]; [discriminate H|].
    rewrite Hconn. unfold MigrateEnrichment.insert_enrichment_data.
    cbn [Pg.pending]. rewrite H. reflexivity.
  - intros w df name c H. unfold MigrateRnaSeq.insert_data_to_database. rewrite H.
    split; [reflexivity|]. split; [discriminate | reflexivity].
Qed.

Lemma C6_witness :
  MigrateEnrichment.migrate_enrichment_data accepts_integer_count kegg_and_bad_rctm
    false false {[ "enrichment_data" := enrichment_table ]}
  = ({[ "enrichment_data" := enrichment_table ]}, Py.Return (MigrateEnrichment.Inserted 0)).
Proof.
  apply (proj1 (proj2 (C6_error_rolls_back_the_unit accepts_integer_count))
               kegg_and_bad_rctm {[ "enrichment_data" := enrichment_table ]}
               [kegg_file; rctm_file]
               [ MigrateEnrichment.make_record "eIF5A_DDvsWT_EC" "KEGG" ribosome;
                 MigrateEnrichment.make_record "eIF5A_DDvsWT_EC" "Reactome"
                                               translation_bad_count ]).
  - reflexivity.
  - reflexivity.
  - reflexivity.
  - vm_compute. reflexivity.
Defined.

(** C6, as stated, fails for the enrichment loader: the unit of work is not
    one file.  The record of the KEGG file is written when that file is
    loaded alone; the record of the Reactome file raises the database error;
    and the run over both files writes nothing, the KEGG record included. *)
Lemma C6_counterexample :
  length (Pg.rows
            (default enrichment_table
               (Pg.committed
                  (fst (MigrateEnrichment.insert_enrichment_data accepts_integer_count
                          kegg_and_bad_rctm
                          [MigrateEnrichment.make_record "eIF5A_DDvsWT_EC" "KEGG" ribosome]
                          (fresh_conn {[ "enrichment_data" := enrichment_table ]})))
                !! "enrichment_data"))) = 1
  /\ Pg.exec_upsert accepts_integer_count MigrateEnrichment.insert_query 1
       (MigrateEnrichment.record_values
          (MigrateEnrichment.make_record "eIF5A_DDvsWT_EC" "Reactome" translation_bad_count))
       {[ "enrichment_data" := enrichment_table ]} = None
  /\ MigrateEnrichment.parse_all kegg_and_bad_rctm [kegg_file; rctm_file]
     = Py.Return [ MigrateEnrichment.make_record "eIF5A_DDvsWT_EC" "KEGG" ribosome;
                   MigrateEnrichment.make_record "eIF5A_DDvsWT_EC" "Reactome"
                                                 translation_bad_count ]
  /\ MigrateEnrichment.migrate_enrichment_data accepts_integer_count kegg_and_bad_rctm
       false false {[ "enrichment_data" := enrichment_table ]}
     = ({[ "enrichment_data" := enrichment_table ]},
        Py.Return (MigrateEnrichment.Inserted 0))
  /\ Pg.rows enrichment_table = [].
Proof.
  split; [vm_compute; reflexivity|]. split; [vm_compute; reflexivity|].
  split; [reflexivity|]. split; [vm_compute; reflexivity | reflexivity].
Qed.

(** Under [--all] the RNA-seq loader stops at the first comparison whose
    insertion raises a database error: [sys.exit(1)] in
    [insert_data_to_database] is no [Exception], the [except] clause of
    [migrate_single_comparison] lets it through, and the comparisons after it
    are not migrated. *)
Lemma rna_all_stops_at_first_error :
  snd (MigrateRnaSeq.main (fun _ _ => true) (fun _ _ => true) two_comparisons true None ∅)
  = Py.Raise (Py.SystemExit 1)
  /\ fst (MigrateRnaSeq.main (fun _ _ => true) (fun _ _ => true) two_comparisons true None ∅)
     !! "C_vs_D" = None
  /\ snd (MigrateRnaSeq.migrate_single_comparison (fun _ _ => true) (fun _ _ => true)
            two_comparisons "C_vs_D" ∅) = Py.Return true.
Proof.
  split; [vm_compute; reflexivity|]. split; vm_compute; reflexivity.
Qed.

(** ** Running a batch of upserts twice

    The rows are of type [X], the parameter sets of type [E].  A parameter
    set [e] is in conflict with the rows [x] for which [cf e x]; two
    parameter sets with the same key are related by [sk].  The first pass
    updates with [upd1] and inserts [new1], the second with [upd2] and
    [new2]; [R] relates a row after the second pass to the row after the
    first. *)

Section UpsertTwice.
Import Pg.
Context {X E : Type}.
Variables (cf : E -> X -> bool) (sk : E -> E -> bool) (ok : E -> bool).
Variables (upd1 upd2 : E -> X -> X) (new1 new2 : E -> X).
Variable R : X -> X -> Prop.

Hypothesis R_refl : forall x, R x x.
Hypothesis R_trans : forall x y z, R x y -> R y z -> R x z.
Hypothesis cf_sk : forall e e' x, cf e x = true -> cf e' x = sk e e'.
Hypothesis sk_sym : forall e e', sk e e' = sk e' e.
Hypothesis cf_upd1 : forall e e' x, cf e' (upd1 e x) = cf e' x.
Hypothesis cf_upd2 : forall e e' x, cf e' (upd2 e x) = cf e' x.
Hypothesis cf_new1 : forall e, ok e = true -> cf e (new1 e) = true.
Hypothesis upd2_upd2 : forall e e' x, upd2 e' (upd2 e x) = upd2 e' x.
Hypothesis settle_upd : forall e x, R (upd2 e (upd1 e x)) (upd1 e x).
Hypothesis settle_new : forall e, R (upd2 e (new1 e)) (new1 e).

Local Abbreviation hit := (Upsert.hit cf).
Local Abbreviation settled := (Upsert.settled cf upd2 R).
Local Abbreviation pass := (Upsert.pass cf).

Section OneStep.
Variables (upd : E -> X -> X) (new : E -> X).
Hypothesis cf_upd : forall e e' x, cf e' (upd e x) = cf e' x.

Lemma cf_same_key (e e' : E) (x : X) : sk e e' = true -> cf e' x = cf e x.
Proof.
  intros Hsk. destruct (cf e x) eqn:He.
  - rewrite (cf_sk e e' x He). exact Hsk.
  - destruct (cf e' x) eqn:He'; [|reflexivity].
    rewrite (cf_sk e' e x He'), <- sk_sym, Hsk in He. discriminate He.
Qed.

Lemma hit_step_same (e : E) (rs : list X) :
  (ok e = true -> cf e (new e) = true) -> ok e = true ->
  hit e (upsert_list (cf e) (upd e) (new e) rs)
  = Some (match hit e rs with Some x => upd e x | None => new e end).
Proof.
  intros Hnew Hok. unfold Upsert.hit. induction rs as [|y rs IH]; simpl.
  - rewrite (Hnew Hok). reflexivity.
  - destruct (cf e y) eqn:Hy; simpl.
    + rewrite cf_upd, Hy. reflexivity.
    + rewrite Hy. exact IH.
Qed.

Lemma hit_step_other (e e' : E) (rs : list X) (x : X) :
  sk e e' = false -> hit e rs = Some x ->
  hit e (upsert_list (cf e') (upd e') (new e') rs) = Some x.
Proof.
  intros Hsk. unfold Upsert.hit. induction rs as [|y rs IH]; simpl; [discriminate|].
  destruct (cf e y) eqn:Hy; intros H.
  - injection H as <-. rewrite (cf_sk e e' y Hy), Hsk. simpl. rewrite Hy. reflexivity.
  - destruct (cf e' y); simpl.
    + rewrite cf_upd, Hy. exact H.
    + rewrite Hy. apply IH, H.
Qed.

Lemma hit_step_covered (e e' : E) (rs : list X) :
  is_Some (hit e rs) -> is_Some (hit e (upsert_list (cf e') (upd e') (new e') rs)).
Proof.
  intros [x Hx]. destruct (sk e e') eqn:Hsk.
  - unfold Upsert.hit in *. induction rs as [|y rs IH]; [discriminate Hx|].
    cbn [upsert_list find] in *. rewrite (cf_same_key e e' y Hsk).
    destruct (cf e y) eqn:Hy; cbn [find].
    + rewrite cf_upd, Hy. eauto.
    + rewrite Hy. apply IH, Hx.
  - rewrite (hit_step_other e e' rs x Hsk Hx). eauto.
Qed.

Lemma step_same_key (e e' : E) (rs : list X) :
  (forall x, upd e' (upd e x) = upd e' x) ->
  sk e e' = true -> is_Some (hit e rs) ->
  upsert_list (cf e') (upd e') (new e') (upsert_list (cf e) (upd e) (new e) rs)
  = upsert_list (cf e') (upd e') (new e') rs.
Proof.
  intros Hupd Hsk [x Hx]. unfold Upsert.hit in Hx.
  induction rs as [|y rs IH]; [discriminate Hx|].
  cbn [upsert_list find] in *. pose proof (cf_same_key e e' y Hsk) as Hk.
  destruct (cf e y) eqn:Hy; cbn [upsert_list].
  - rewrite cf_upd, Hk, Hupd. reflexivity.
  - rewrite Hk, (IH Hx). reflexivity.
Qed.

Lemma step_other_key (e e' : E) (rs : list X) :
  sk e e' = false -> is_Some (hit e rs) ->
  upsert_list (cf e') (upd e') (new e') (upsert_list (cf e) (upd e) (new e) rs)
  = upsert_list (cf e) (upd e) (new e) (upsert_list (cf e') (upd e') (new e') rs).
Proof.
  intros Hsk [x Hx]. unfold Upsert.hit in Hx.
  induction rs as [|y rs IH]; [discriminate Hx|].
  cbn [upsert_list find] in *.
  destruct (cf e y) eqn:Hy.
  - pose proof (cf_sk e e' y Hy) as Hk. rewrite Hsk in Hk.
    rewrite Hk. cbn [upsert_list]. rewrite cf_upd, Hk, Hy. reflexivity.
  - destruct (cf e' y) eqn:Hy'; cbn [upsert_list].
    + rewrite Hy', cf_upd, Hy. reflexivity.
    + rewrite Hy', Hy, (IH Hx). reflexivity.
Qed.
End OneStep.

Lemma settled_step_same (e : E) (rs : list X) :
  ok e = true -> settled e (upsert_list (cf e) (upd1 e) (new1 e) rs).
Proof.
  intros Hok. unfold Upsert.settled.
  rewrite (hit_step_same upd1 new1 cf_upd1 e rs (cf_new1 e) Hok).
  eexists. split; [reflexivity|]. destruct (hit e rs); [apply settle_upd | apply settle_new].
Qed.

Lemma settled_step_other (upd : E -> X -> X) (new : E -> X) (e e' : E) (rs : list X) :
  (forall e e' x, cf e' (upd e x) = cf e' x) ->
  sk e e' = false -> settled e rs ->
  settled e (upsert_list (cf e') (upd e') (new e') rs).
Proof.
  intros Hupd Hsk (x & Hx & HR). exists x.
  split; [apply (hit_step_other upd new Hupd e e' rs x Hsk Hx) | exact HR].
Qed.

Lemma covered_pass (upd : E -> X -> X) (new : E -> X) (e : E) (batch : list E) (rs : list X) :
  (forall e e' x, cf e' (upd e x) = cf e' x) ->
  is_Some (hit e rs) -> is_Some (hit e (pass upd new batch rs)).
Proof.
  intros Hupd. revert rs. induction batch as [|e' batch IH]; intros rs H; [exact H|].
  simpl. apply IH, (hit_step_covered upd new Hupd), H.
Qed.

Lemma settled_pass (e : E) (batch : list E) (rs : list X) :
  settled e rs ->
  settled e (pass upd1 new1 batch rs) \/ exists e', In e' batch /\ sk e e' = true.
Proof.
  revert rs. induction batch as [|e' batch IH]; intros rs H; [left; exact H|].
  destruct (sk e e') eqn:Hsk.
  - right. exists e'. split; [left; reflexivity | exact Hsk].
  - destruct (IH _ (settled_step_other upd1 new1 e e' rs cf_upd1 Hsk H))
      as [Hs | (e'' & Hin & Hsk'')].
    + left. exact Hs.
    + right. exists e''. split; [right; exact Hin | exact Hsk''].
Qed.

Lemma Forall2_R_refl (rs : list X) : Forall2 R rs rs.
Proof. induction rs; constructor; [apply R_refl | assumption]. Qed.

Lemma settled_step_related (e : E) (rs : list X) :
  settled e rs -> Forall2 R (upsert_list (cf e) (upd2 e) (new2 e) rs) rs.
Proof.
  intros (x & Hx & HR). unfold Upsert.hit in Hx.
  induction rs as [|y rs IH]; simpl in *; [discriminate|].
  destruct (cf e y).
  - injection Hx as ->. constructor; [exact HR | apply Forall2_R_refl].
  - constructor; [apply R_refl | apply IH, Hx].
Qed.

(** A parameter set run once more ahead of the batch changes nothing, up
    to [R], when its row is settled or the batch writes that row again. *)
Lemma pass_absorbs (e : E) (batch : list E) (rs : list X) :
  is_Some (hit e rs) ->
  (settled e rs \/ exists e', In e' batch /\ sk e e' = true) ->
  Forall2 R (pass upd2 new2 batch (upsert_list (cf e) (upd2 e) (new2 e) rs))
            (pass upd2 new2 batch rs).
Proof.
  revert rs. induction batch as [|e' batch IH]; intros rs Hcov H.
  - destruct H as [H | (e' & [] & _)]. apply settled_step_related, H.
  - cbn [Upsert.pass]. destruct (sk e e') eqn:Hsk.
    + rewrite (step_same_key upd2 new2 cf_upd2 e e' rs (upd2_upd2 e e') Hsk Hcov).
      apply Forall2_R_refl.
    + rewrite (step_other_key upd2 new2 cf_upd2 e e' rs Hsk Hcov).
      apply IH; [apply (hit_step_covered upd2 new2 cf_upd2), Hcov|].
      destruct H as [H | (e'' & [<- | Hin] & Hsk'')].
      * left. apply (settled_step_other upd2 new2 e e' rs cf_upd2 Hsk H).
      * rewrite Hsk in Hsk''. discriminate Hsk''.
      * right. exists e''. split; assumption.
Qed.

(** The second pass leaves every row related to the row of the first. *)
Theorem pass_twice (batch : list E) (rs : list X) :
  Forall (fun e => ok e = true) batch ->
  Forall2 R (pass upd2 new2 batch (pass upd1 new1 batch rs)) (pass upd1 new1 batch rs).
Proof.
  intros Hok. revert rs. induction Hok as [|e batch He _ IH]; intros rs.
  - apply Forall2_R_refl.
  - cbn [Upsert.pass]. set (rs1 := upsert_list (cf e) (upd1 e) (new1 e) rs).
    eapply Forall2_trans; [exact R_trans | | apply (IH rs1)].
    apply pass_absorbs.
    + apply (covered_pass upd1 new1 e batch rs1 cf_upd1). unfold rs1.
      rewrite (hit_step_same upd1 new1 cf_upd1 e rs (cf_new1 e) He). eauto.
    + apply settled_pass, settled_step_same, He.
Qed.

End UpsertTwice.

(** ** A batch of one upsert statement, run twice on a table *)

Lemma with_rows_rows (t : Pg.table) : Pg.with_rows t (Pg.rows t) = t.
Proof. destruct t; reflexivity. Qed.

Section BatchTwice.
Import Py Pg.
Variable accepts : string -> gmap string sqlval -> bool.
Variable st : upsert_stmt.
Variable t : table.

Hypothesis target_listed : conflict_target st ⊆ insert_cols st.
Hypothesis set_listed : set_excluded st ⊆ insert_cols st.
Hypothesis target_kept :
  Forall (fun c => (c ∉ set_excluded st) /\ (c ∉ set_current_timestamp st))
         (conflict_target st).

Local Abbreviation cf_values := (Upsert.cf_values st).
Local Abbreviation same_key := (Upsert.same_key st).
Local Abbreviation key_not_null := (Upsert.key_not_null st).
Local Abbreviation upd_at := (Upsert.upd_at st t).
Local Abbreviation new_at := (Upsert.new_at st t).
Local Abbreviation same_but_timestamps := (Upsert.same_but_timestamps st).
Local Abbreviation batch_rows := (Upsert.batch_rows st t).

Lemma upsert_rows_values (now : Z) (values : gmap string sqlval)
      (rs : list (gmap string sqlval)) :
  upsert_rows st now (excluded_row t st now values) rs
  = upsert_list (cf_values values) (upd_at now values) (new_at now values) rs.
Proof.
  unfold upsert_rows. apply upsert_list_ext. intros x.
  unfold Upsert.cf_values, conflicts. rewrite (key_of_excluded_row _ _ _ _ _ target_listed).
  reflexivity.
Qed.

Lemma cf_values_key (e e' x : gmap string sqlval) :
  cf_values e x = true -> cf_values e' x = same_key e e'.
Proof.
  unfold Upsert.cf_values, conflicts, Upsert.same_key. intros H.
  apply andb_prop in H as [Hk Hn]. apply bool_decide_eq_true in Hk. rewrite Hk.
  destruct (decide (key_of (conflict_target st) e = key_of (conflict_target st) e')) as [Heq|Hne].
  - rewrite <- Heq, Hn, !bool_decide_eq_true_2 by (exact Heq || reflexivity). reflexivity.
  - rewrite !bool_decide_eq_false_2 by exact Hne. reflexivity.
Qed.

Lemma same_key_sym (e e' : gmap string sqlval) : same_key e e' = same_key e' e.
Proof. unfold Upsert.same_key. apply bool_decide_ext. split; congruence. Qed.

Lemma cf_values_upd (now : Z) (e e' x : gmap string sqlval) :
  cf_values e' (upd_at now e x) = cf_values e' x.
Proof.
  unfold Upsert.cf_values, conflicts, Upsert.upd_at. rewrite (key_of_do_update _ _ _ _ target_kept).
  reflexivity.
Qed.

Lemma cf_values_new (now : Z) (e : gmap string sqlval) :
  key_not_null e = true -> cf_values e (new_at now e) = true.
Proof.
  unfold Upsert.cf_values, conflicts, Upsert.new_at, Upsert.key_not_null. intros ->.
  rewrite (key_of_excluded_row _ _ _ _ _ target_listed), bool_decide_eq_true_2; reflexivity.
Qed.

Lemma upd_at_twice (now now' : Z) (e e' x : gmap string sqlval) :
  upd_at now' e' (upd_at now e x) = upd_at now' e' x.
Proof.
  unfold Upsert.upd_at. apply map_eq. intros c. rewrite !lookup_do_update.
  destruct (bool_decide (c ∈ set_current_timestamp st)); [reflexivity|].
  destruct (bool_decide (c ∈ set_excluded st)); reflexivity.
Qed.

Lemma upd_at_settled (now now' : Z) (e x : gmap string sqlval) :
  same_but_timestamps (upd_at now' e (upd_at now e x)) (upd_at now e x).
Proof.
  intros c Hc. unfold Upsert.upd_at. rewrite !lookup_do_update.
  rewrite !bool_decide_eq_false_2 by exact Hc.
  destruct (bool_decide (c ∈ set_excluded st)) eqn:E; [|reflexivity].
  apply bool_decide_eq_true in E. rewrite !lookup_excluded_row by apply set_listed, E.
  reflexivity.
Qed.

Lemma new_at_settled (now now' : Z) (e : gmap string sqlval) :
  same_but_timestamps (upd_at now' e (new_at now e)) (new_at now e).
Proof.
  intros c Hc. unfold Upsert.upd_at, Upsert.new_at. rewrite lookup_do_update.
  rewrite bool_decide_eq_false_2 by exact Hc.
  destruct (bool_decide (c ∈ set_excluded st)) eqn:E; [|reflexivity].
  apply bool_decide_eq_true in E. rewrite !lookup_excluded_row by apply set_listed, E.
  reflexivity.
Qed.

Lemma exec_many_rows (now : Z) (batch : list (gmap string sqlval))
      (rs : list (gmap string sqlval)) (d : db) :
  d !! into st = Some (with_rows t rs) ->
  exec_many accepts st now batch d
  = if forallb (stmt_ok accepts t st now) batch
    then Some (<[into st := with_rows t (batch_rows now batch rs)]> d)
    else None.
Proof.
  revert rs d. induction batch as [|values batch IH]; intros rs d Hd.
  - cbn. rewrite insert_id by exact Hd. reflexivity.
  - cbn [exec_many forallb]. unfold exec_upsert. rewrite Hd.
    change (stmt_ok accepts (with_rows t rs) st now values)
      with (stmt_ok accepts t st now values).
    destruct (stmt_ok accepts t st now values); [|reflexivity].
    change (excluded_row (with_rows t rs) st now values)
      with (excluded_row t st now values).
    change (rows (with_rows t rs)) with rs.
    rewrite upsert_rows_values.
    rewrite (IH (upsert_list (cf_values values) (upd_at now values) (new_at now values) rs));
      [|apply lookup_insert_eq].
    cbn [andb]. rewrite insert_insert_eq. reflexivity.
Qed.

Lemma batch_rows_twice (now now' : Z) (batch : list (gmap string sqlval))
      (rs : list (gmap string sqlval)) :
  Forall (fun v => key_not_null v = true) batch ->
  Forall2 same_but_timestamps (batch_rows now' batch (batch_rows now batch rs))
                              (batch_rows now batch rs).
Proof.
  apply (pass_twice cf_values same_key key_not_null (upd_at now) (upd_at now')
                    (new_at now) (new_at now') same_but_timestamps).
  - intros x c _. reflexivity.
  - intros x y z H1 H2 c Hc. rewrite (H1 c Hc). apply H2, Hc.
  - apply cf_values_key.
  - apply same_key_sym.
  - apply cf_values_upd.
  - apply cf_values_upd.
  - apply cf_values_new.
  - intros e e' x. apply upd_at_twice.
  - intros e x. apply upd_at_settled.
  - intros e. apply new_at_settled.
Qed.

(** Running the batch a second time on the database the first run left:
    the run succeeds when the first did, and the rows agree outside the
    timestamps. *)
Lemma exec_many_twice (now now' : Z) (batch : list (gmap string sqlval)) (d d1 : db) :
  Forall (fun v => key_not_null v = true) batch ->
  d !! into st = Some t ->
  exec_many accepts st now batch d = Some d1 ->
  exists rs1 rs2,
    d1 = <[into st := with_rows t rs1]> d
    /\ exec_many accepts st now' batch d1 = Some (<[into st := with_rows t rs2]> d)
    /\ Forall2 same_but_timestamps rs2 rs1.
Proof.
  intros Hkeys Hd H1.
  assert (Hd' : d !! into st = Some (with_rows t (rows t)))
    by (rewrite with_rows_rows; exact Hd).
  rewrite (exec_many_rows now batch (rows t) d Hd') in H1.
  destruct (forallb (stmt_ok accepts t st now) batch) eqn:Hok; [|discriminate H1].
  injection H1 as <-.
  exists (batch_rows now batch (rows t)),
         (batch_rows now' batch (batch_rows now batch (rows t))).
  split; [reflexivity|]. split; [|apply batch_rows_twice, Hkeys].
  rewrite (exec_many_rows now' batch (batch_rows now batch (rows t)))
    by apply lookup_insert_eq.
  rewrite (forallb_pointwise _ (stmt_ok accepts t st now))
    by (intros v; apply stmt_ok_now).
  rewrite Hok, insert_insert_eq. reflexivity.
Qed.

End BatchTwice.

(** A batch that fails fails again, whatever the time. *)
Lemma exec_many_fails_again (accepts : string -> gmap string Pg.sqlval -> bool)
      (st : Pg.upsert_stmt) (now now' : Z) (batch : list (gmap string Pg.sqlval)) (d : Pg.db) :
  Pg.conflict_target st ⊆ Pg.insert_cols st ->
  Pg.exec_many accepts st now batch d = None ->
  Pg.exec_many accepts st now' batch d = None.
Proof.
  intros Hsub H. destruct (d !! Pg.into st) as [t|] eqn:Hd.
  - assert (Hd' : d !! Pg.into st = Some (Pg.with_rows t (Pg.rows t)))
      by (rewrite with_rows_rows; exact Hd).
    rewrite (exec_many_rows accepts st t Hsub now batch (Pg.rows t) d Hd') in H.
    rewrite (exec_many_rows accepts st t Hsub now' batch (Pg.rows t) d Hd').
    rewrite (forallb_pointwise _ (Pg.stmt_ok accepts t st now))
      by (intros v; apply stmt_ok_now).
    destruct (forallb (Pg.stmt_ok accepts t st now) batch); [discriminate H | reflexivity].
  - destruct batch as [|v batch]; [discriminate H|].
    cbn [Pg.exec_many]. unfold Pg.exec_upsert. rewrite Hd. reflexivity.
Qed.

(** ** The enrichment upsert *)

Ltac decide_names := apply (bool_decide_unpack _); vm_compute; exact I.

Section EnrichmentUpsert.
Import Py Pg MigrateEnrichment.

Lemma insert_query_target_listed : conflict_target insert_query ⊆ insert_cols insert_query.
Proof.
  intros c Hc. apply (Forall_forall (fun c => c ∈ insert_cols insert_query)
                                    (conflict_target insert_query)); [|exact Hc].
  decide_names.
Qed.

Lemma insert_query_set_listed : set_excluded insert_query ⊆ insert_cols insert_query.
Proof.
  intros c Hc. apply (Forall_forall (fun c => c ∈ insert_cols insert_query)
                                    (set_excluded insert_query)); [|exact Hc].
  decide_names.
Qed.

Lemma insert_query_target_kept :
  Forall (fun c => (c ∉ set_excluded insert_query) /\ (c ∉ set_current_timestamp insert_query))
         (conflict_target insert_query).
Proof. decide_names. Qed.

Lemma insert_query_set_not_timestamp (c : string) :
  c ∈ set_excluded insert_query -> c ∉ set_current_timestamp insert_query.
Proof.
  intros H Ht. apply list_elem_of_singleton in Ht. subst c.
  revert H. change ("updated_at" ∉ set_excluded insert_query). decide_names.
Qed.

Ltac lookup_record :=
  unfold record_values; cbn [insert_cols insert_query];
  repeat (rewrite lookup_bind_params_cons;
          match goal with
          | |- context [decide (?a = ?b)] =>
              let E := fresh "E" in
              destruct (decide (a = b)) as [E|E];
              [try discriminate E | try (exfalso; apply E; reflexivity)]; clear E
          end);
  try reflexivity.

(** What a record sends for each column. *)
Lemma lookup_record_values (r : EnrichmentRecord) :
  record_values r !! "comparison" = Some (Param (PStr (comparison r)))
  /\ record_values r !! "database" = Some (Param (PStr (database r)))
  /\ record_values r !! "term_id" = adapt (term_id r)
  /\ record_values r !! "term_description" = adapt (term_description r)
  /\ record_values r !! "genes_mapped" = adapt (genes_mapped r)
  /\ record_values r !! "enrichment_score" = adapt (enrichment_score r)
  /\ record_values r !! "direction" = adapt (direction r)
  /\ record_values r !! "false_discovery_rate" = adapt (false_discovery_rate r)
  /\ record_values r !! "method" = adapt (method r)
  /\ record_values r !! "matching_protein_ids" = adapt (matching_protein_ids r)
  /\ record_values r !! "matching_protein_labels" = adapt (matching_protein_labels r).
Proof. repeat split; lookup_record. Qed.

Lemma record_key_not_null (r : EnrichmentRecord) :
  truthy (term_id r) = true -> Upsert.key_not_null insert_query (record_values r) = true.
Proof.
  intros H. unfold Upsert.key_not_null, key_of. cbn [conflict_target insert_query fmap list_fmap forallb].
  destruct (lookup_record_values r) as (-> & -> & -> & _).
  destruct (term_id r); try reflexivity. discriminate H.
Qed.

Lemma same_except_updated_at_refl (rs : list (gmap string sqlval)) :
  Forall2 same_except_updated_at rs rs.
Proof. induction rs; constructor; [intros c _; reflexivity | assumption]. Qed.

Variable accepts : string -> gmap string sqlval -> bool.

Lemma insert_enrichment_data_cons (w : world) (r : EnrichmentRecord)
      (records : list EnrichmentRecord) (c : conn) :
  insert_enrichment_data accepts w (r :: records) c
  = match exec_many accepts insert_query (now w) (record_values <$> r :: records)
                    (pending c) with
    | Some d => (commit (on_pending c d), length (r :: records))
    | None => (rollback c, 0)
    end.
Proof. reflexivity. Qed.

Lemma insert_twice (w1 w2 : world) (records : list EnrichmentRecord) (d : db) :
  Forall (fun r => truthy (term_id r) = true) records ->
  let first := insert_enrichment_data accepts w1 records (fresh_conn d) in
  let second := insert_enrichment_data accepts w2 records (fst first) in
  Forall2 same_except_updated_at (enrichment_rows (committed (fst second)))
                                 (enrichment_rows (committed (fst first)))
  /\ snd second = snd first
  /\ forall name, name <> "enrichment_data" ->
                  committed (fst second) !! name = committed (fst first) !! name.
Proof.
  intros Hvalid first second. subst second first.
  destruct records as [|r0 rest].
  { cbn. split; [apply same_except_updated_at_refl | auto]. }
  rewrite (insert_enrichment_data_cons w1). cbn [pending fresh_conn].
  set (batch := record_values <$> r0 :: rest) in *.
  assert (Hkeys : Forall (fun v => Upsert.key_not_null insert_query v = true) batch).
  { apply Forall_fmap. eapply Forall_impl; [exact Hvalid|].
    intros r Hr. apply record_key_not_null, Hr. }
  destruct (exec_many accepts insert_query (now w1) batch d) as [d1|] eqn:H1;
    cbn [fst snd]; rewrite insert_enrichment_data_cons; fold batch;
    cbn [pending commit on_pending rollback fresh_conn committed].
  - destruct (d !! into insert_query) as [t|] eqn:Hd.
    2:{ unfold batch in H1. cbn [fmap list_fmap exec_many] in H1.
        unfold exec_upsert in H1. rewrite Hd in H1. discriminate H1. }
    destruct (exec_many_twice accepts insert_query t insert_query_target_listed
                insert_query_set_listed insert_query_target_kept
                (now w1) (now w2) batch d d1 Hkeys Hd H1)
      as (rs1 & rs2 & -> & H2 & Hrel).
    rewrite H2. cbn [fst snd committed commit on_pending pending].
    unfold enrichment_rows. change (into insert_query) with "enrichment_data".
    rewrite !lookup_insert_eq. cbn [rows with_rows].
    split; [|split; [reflexivity|]].
    + eapply Forall2_impl; [exact Hrel|]. intros x y Hxy c Hc. apply Hxy.
      intros Hin. apply list_elem_of_singleton in Hin. contradiction.
    + intros name Hname. rewrite !lookup_insert_ne by congruence. reflexivity.
  - rewrite (exec_many_fails_again accepts insert_query (now w1) (now w2) batch d
               insert_query_target_listed H1).
    cbn. split; [apply same_except_updated_at_refl | auto].
Qed.

(** A record in conflict with a row: the row after the statement. *)
Lemma upsert_overwrites (now : Z) (r : EnrichmentRecord) (d d' : db) (t : table)
      (before after : list (gmap string sqlval)) (old : gmap string sqlval) :
  d !! "enrichment_data" = Some t ->
  rows t = (before ++ old :: after)%list ->
  Forall (fun x => conflicts (conflict_target insert_query) x (record_values r) = false)
         before ->
  conflicts (conflict_target insert_query) old (record_values r) = true ->
  exec_upsert accepts insert_query now (record_values r) d = Some d' ->
  exists new,
    d' !! "enrichment_data" = Some (with_rows t (before ++ new :: after)%list)
    /\ (forall c, c ∈ set_excluded insert_query -> new !! c = record_values r !! c)
    /\ new !! "updated_at" = Some (Timestamp now)
    /\ (forall c, c ∉ set_excluded insert_query -> c <> "updated_at" -> new !! c = old !! c).
Proof.
  intros Hd Hrows Hbefore Hold Hexec.
  assert (Hcf : forall x,
             conflicts (conflict_target insert_query) x
                       (excluded_row t insert_query now (record_values r))
             = conflicts (conflict_target insert_query) x (record_values r)).
  { intros x. unfold conflicts.
    rewrite (key_of_excluded_row _ _ _ _ _ insert_query_target_listed). reflexivity. }
  exists (do_update insert_query now (excluded_row t insert_query now (record_values r)) old).
  split; [|split; [|split]].
  - rewrite (exec_upsert_conflict accepts insert_query now (record_values r) d d' t
               before old after Hd Hrows); [apply lookup_insert_eq | | | exact Hexec].
    + eapply Forall_impl; [exact Hbefore|]. intros x Hx. rewrite Hcf. exact Hx.
    + rewrite Hcf. exact Hold.
  - intros c Hc. rewrite lookup_do_update.
    rewrite bool_decide_eq_false_2 by apply insert_query_set_not_timestamp, Hc.
    rewrite bool_decide_eq_true_2 by exact Hc.
    apply lookup_excluded_row, insert_query_set_listed, Hc.
  - rewrite lookup_do_update. reflexivity.
  - intros c Hc Hu. rewrite lookup_do_update.
    rewrite bool_decide_eq_false_2; [rewrite bool_decide_eq_false_2 by exact Hc; reflexivity|].
    intros H. apply list_elem_of_singleton in H. contradiction.
Qed.

End EnrichmentUpsert.

Section RunTwice.
Import Py Pg MigrateEnrichment.
Variable accepts : string -> gmap string sqlval -> bool.

Lemma parse_all_set_now (w : world) (n : Z) (files : list file_info) :
  parse_all (set_now w n) files = parse_all w files.
Proof. induction files as [|fi files IH]; [reflexivity|]. cbn. rewrite IH. reflexivity. Qed.

Lemma parse_all_valid (w : world) (files : list file_info) (records : list EnrichmentRecord) :
  parse_all w files = Return records ->
  Forall (fun r => truthy (term_id r) = true) records.
Proof.
  revert records. induction files as [|fi files IH]; intros records H.
  - injection H as <-. constructor.
  - cbn [parse_all] in H.
    destruct (parse_enrichment_file w fi) as [rs|e] eqn:Hfi; [|discriminate H].
    destruct (parse_all w files) as [more|e]; [|discriminate H].
    injection H as <-. apply Forall_app. split; [|apply IH; reflexivity].
    unfold parse_enrichment_file in Hfi.
    destruct (load w (fi_path fi)) as [| | |data]; try discriminate Hfi;
      try (injection Hfi as <-; constructor).
    destruct data; injection Hfi as <-; try constructor.
    eapply Forall_impl; [apply parse_items_valid|]. intros r [Hr _]. exact Hr.
Qed.

Lemma insert_leaves_fresh_conn (w : world) (records : list EnrichmentRecord) (d : db) :
  fst (insert_enrichment_data accepts w records (fresh_conn d))
  = fresh_conn (committed (fst (insert_enrichment_data accepts w records (fresh_conn d)))).
Proof.
  unfold insert_enrichment_data. destruct records as [|r records]; [reflexivity|].
  destruct (exec_many _ _ _ _ _); reflexivity.
Qed.

(** The whole run, twice, on the same files. *)
Lemma run_twice (w : world) (n1 n2 : Z) (d : db) :
  let first := migrate_enrichment_data accepts (set_now w n1) false false d in
  let second := migrate_enrichment_data accepts (set_now w n2) false false (fst first) in
  Forall2 same_except_updated_at (enrichment_rows (fst second)) (enrichment_rows (fst first))
  /\ snd second = snd first.
Proof.
  intros first second. subst second first. unfold migrate_enrichment_data.
  change (source (set_now w n1)) with (source w).
  change (source (set_now w n2)) with (source w).
  change (can_connect (set_now w n1)) with (can_connect w).
  change (can_connect (set_now w n2)) with (can_connect w).
  destruct (find_enrichment_files (source w)) as [[|fi files]|e];
    [split; [apply same_except_updated_at_refl | reflexivity] | |
     split; [apply same_except_updated_at_refl | reflexivity]].
  rewrite !parse_all_set_now.
  destruct (parse_all w (fi :: files)) as [[|r records]|e] eqn:Hparse;
    [split; [apply same_except_updated_at_refl | reflexivity] | |
     split; [apply same_except_updated_at_refl | reflexivity]].
  destruct (can_connect w);
    [|split; [apply same_except_updated_at_refl | reflexivity]].
  pose proof (insert_twice accepts (set_now w n1) (set_now w n2) (r :: records) d
                (parse_all_valid w _ _ Hparse)) as (Hrows & Hcount & _).
  cbv zeta in Hrows, Hcount.
  rewrite (insert_leaves_fresh_conn (set_now w n1) (r :: records) d) in Hrows, Hcount.
  change (fresh_conn d) with {| committed := d; pending := d |} in *.
  destruct (insert_enrichment_data accepts (set_now w n1) (r :: records)
              {| committed := d; pending := d |}) as [c1 k1].
  cbn [fst snd] in *.
  change {| committed := committed c1; pending := committed c1 |}
    with (fresh_conn (committed c1)).
  destruct (insert_enrichment_data accepts (set_now w n2) (r :: records)
              (fresh_conn (committed c1))) as [c2 k2].
  cbn [fst snd] in *. split; [exact Hrows | rewrite Hcount; reflexivity].
Qed.

End RunTwice.



(** * Further properties *)

(** ** The CREATE TABLE statement *)

Section TableLayout.
Import PyStr SchemaDefinitions MigrateRnaSeq.

Lemma prefix_shef_line (s t : string) :
  String.prefix "shef" s = true -> is_sql_line (s ++ t) = true.
Proof.
  destruct s as [|a s]; [discriminate|]. cbn [String.prefix].
  destruct (ascii_dec "s" a) as [<-|]; [|discriminate]. intros _. reflexivity.
Qed.

Lemma classify_sample (col : string) :
  classify col = Sample -> String.prefix "shef" (lower col) = true.
Proof.
  unfold classify, is_sample, startswith.
  destruct (String.prefix "shef" (lower col)); [reflexivity|]. cbn [andb].
  destruct (is_readcount (lower col)); [discriminate|].
  destruct (is_fpkm (lower col)); discriminate.
Qed.

Lemma filter_sample_columns (columns : list string) :
  List.filter is_sql_line (sample_columns columns) = sample_columns columns.
Proof.
  unfold sample_columns. induction columns as [|col columns IH]; [reflexivity|].
  cbn [flat_map]. destruct (classify col) eqn:E; cbn [app]; try exact IH.
  cbn [List.filter]. rewrite (prefix_shef_line _ _ (classify_sample col E)), IH. reflexivity.
Qed.

Lemma filter_group (header : string) (cols : list string) :
  String.prefix "--" header = true ->
  List.filter is_sql_line (group header cols) = List.filter is_sql_line cols.
Proof.
  intros H. destruct cols as [|c cols]; [reflexivity|].
  assert (Hh : is_sql_line header = false).
  { unfold is_sql_line, startswith. rewrite H. apply andb_false_r. }
  unfold group. change (List.filter is_sql_line ("" :: header :: c :: cols))
    with (if is_sql_line header then header :: List.filter is_sql_line (c :: cols)
          else List.filter is_sql_line (c :: cols)).
  rewrite Hh. reflexivity.
Qed.

Lemma sql_columns_layout (c : string) (cs : list string) :
  sql_columns (Some (c :: cs))
  = ([ "gene_id VARCHAR(50) PRIMARY KEY"; "gene_name VARCHAR(100)"; "gene_chr VARCHAR(10)";
       "gene_start BIGINT"; "gene_end BIGINT"; "gene_strand VARCHAR(1)";
       "gene_length INTEGER"; "gene_biotype VARCHAR(50)"; "gene_description TEXT" ]
     ++ sample_columns (c :: cs)
     ++ [ "tf_family VARCHAR(50)"; "log2foldchange DOUBLE PRECISION";
          "pvalue DOUBLE PRECISION"; "padj DOUBLE PRECISION" ]
     ++ List.filter is_sql_line (readcount_columns (c :: cs))
     ++ List.filter is_sql_line (fpkm_columns (c :: cs))
     ++ [ "log10_padj DOUBLE PRECISION";
          "created_at TIMESTAMP DEFAULT CURRENT_TIMESTAMP" ])%list.
Proof.
  unfold sql_columns, all_columns. rewrite !List.filter_app.
  rewrite !filter_group by reflexivity. rewrite filter_sample_columns. reflexivity.
Qed.

Lemma classify_lower (col : string) : classify (lower col) = classify col.
Proof. unfold classify. rewrite lower_idempotent. reflexivity. Qed.

Lemma classify_column_mapping (col : string) :
  classify (column_mapping col) = classify col
  /\ (classify col <> Unmatched -> column_mapping col = lower col).
Proof.
  unfold column_mapping.
  destruct (String.eqb_spec col "log2FoldChange") as [->|_].
  { split; [reflexivity | intros H; elim H; reflexivity]. }
  destruct (String.eqb_spec col "-log10(padj)") as [->|_].
  { split; [reflexivity | intros H; elim H; reflexivity]. }
  split; [apply classify_lower | reflexivity].
Qed.

Lemma bucket_columns_mapped (columns : list string) :
  sample_columns (List.map column_mapping columns) = sample_columns columns
  /\ readcount_columns (List.map column_mapping columns) = readcount_columns columns
  /\ fpkm_columns (List.map column_mapping columns) = fpkm_columns columns.
Proof.
  unfold sample_columns, readcount_columns, fpkm_columns.
  induction columns as [|col columns (IH1 & IH2 & IH3)]; [auto|].
  cbn [List.map flat_map]. rewrite IH1, IH2, IH3.
  destruct (classify_column_mapping col) as [-> Hlow].
  destruct (classify col); try (rewrite Hlow by discriminate; rewrite lower_idempotent); auto.
Qed.



Lemma prefix_empty (s : string) : String.prefix "" s = true.
Proof. destruct s; reflexivity. Qed.

Lemma lower_ascii_dash (a : ascii) : lower_ascii a = "-"%char -> a = "-"%char.
Proof. destruct a as [[] [] [] [] [] [] [] []]; intros E; try reflexivity; discriminate E. Qed.

Lemma lower_ascii_blank (a : ascii) : lower_ascii a = " "%char -> a = " "%char.
Proof. destruct a as [[] [] [] [] [] [] [] []]; intros E; try reflexivity; discriminate E. Qed.

Lemma prefix_cons (a b : ascii) (s t : string) :
  String.prefix (String a s) (String b t) = if Ascii.eqb a b then String.prefix s t else false.
Proof.
  change (String.prefix (String a s) (String b t))
    with (match ascii_dec a b with left _ => String.prefix s t | right _ => false end).
  destruct (ascii_dec a b); destruct (Ascii.eqb_spec a b); congruence.
Qed.

Lemma lower_cons_app (a : ascii) (s t : string) :
  (lower (String a s) ++ t)%string = String (lower_ascii a) (lower s ++ t).
Proof. reflexivity. Qed.

Lemma prefix_dash_lower (col t : string) :
  String.prefix "-" col = false -> String.prefix "-" (lower col ++ String " " t) = false.
Proof.
  destruct col as [|b col]; [reflexivity|]. rewrite lower_cons_app, !prefix_cons.
  destruct (Ascii.eqb_spec "-" (lower_ascii b)) as [E|]; [|reflexivity].
  symmetry in E. apply lower_ascii_dash in E. subst b.
  rewrite Ascii.eqb_refl, !prefix_empty. discriminate.
Qed.

Lemma prefix_dashes_lower (col t : string) :
  String.prefix "--" col = false -> String.prefix "--" (lower col ++ String " " t) = false.
Proof.
  destruct col as [|a col]; [reflexivity|]. rewrite lower_cons_app, !prefix_cons.
  destruct (Ascii.eqb_spec "-" (lower_ascii a)) as [E|]; [|reflexivity].
  symmetry in E. apply lower_ascii_dash in E. subst a.
  rewrite Ascii.eqb_refl. apply prefix_dash_lower.
Qed.

(** The definition of a column that does not start with [--] is kept. *)
Lemma column_line (col t : string) :
  startswith col "--" = false -> is_sql_line (lower col ++ String " " t) = true.
Proof.
  intros H. unfold is_sql_line, startswith.
  rewrite (prefix_dashes_lower col t H).
  destruct col; reflexivity.
Qed.

Lemma contains_cons (sub : string) (a : ascii) (s : string) :
  contains sub (String a s) = String.prefix sub (String a s) || contains sub s.
Proof. reflexivity. Qed.

Lemma contains_blank_lower (col : string) :
  contains " " col = false -> contains " " (lower col) = false.
Proof.
  induction col as [|a col IH]; [reflexivity|].
  change (lower (String a col)) with (String (lower_ascii a) (lower col)).
  rewrite !contains_cons, !prefix_cons, !prefix_empty.
  destruct (Ascii.eqb_spec " " a) as [<-|Hne]; [discriminate|]. cbn [orb]. intros H.
  destruct (Ascii.eqb_spec " " (lower_ascii a)) as [E|]; [|exact (IH H)].
  symmetry in E. apply lower_ascii_blank in E. congruence.
Qed.

Lemma first_token_cons (a : ascii) (s : string) :
  first_token (String a s) = if Ascii.eqb a " " then EmptyString else String a (first_token s).
Proof. reflexivity. Qed.

Lemma first_token_app (s t : string) :
  contains " " s = false -> first_token (s ++ String " " t) = s.
Proof.
  induction s as [|a s IH]; [reflexivity|].
  rewrite contains_cons, prefix_cons, prefix_empty.
  destruct (Ascii.eqb_spec " " a) as [<-|Hne]; [discriminate|]. cbn [orb]. intros H.
  change (String a s ++ String " " t)%string with (String a (s ++ String " " t)).
  rewrite first_token_cons. destruct (Ascii.eqb_spec a " ") as [->|_]; [contradiction|].
  rewrite (IH H). reflexivity.
Qed.

Lemma in_bucket_columns (col : string) (columns : list string) :
  In col columns ->
  match classify col with
  | Sample => In (lower col ++ " DOUBLE PRECISION") (sample_columns columns)
  | ReadCount => In (lower col ++ " INTEGER") (readcount_columns columns)
  | Fpkm => In (lower col ++ " DOUBLE PRECISION") (fpkm_columns columns)
  | Unmatched => True
  end.
Proof.
  intros Hin. unfold sample_columns, readcount_columns, fpkm_columns.
  destruct (classify col) eqn:E; [| | |exact I];
    apply in_flat_map; exists col; rewrite E; (split; [exact Hin | left; reflexivity]).
Qed.
End TableLayout.

(** X1.  For a header that is not empty the CREATE TABLE statement
    declares, in this order: the nine columns [gene_id] to
    [gene_description]; the sample columns of the header; [tf_family],
    [log2foldchange], [pvalue], [padj]; the read-count columns; the FPKM
    columns; [log10_padj] and [created_at].  A read-count or FPKM column
    whose lower-case name starts with [--] is left out with the comment
    lines. *)
Theorem X1_create_table_layout :
  forall (name c : string) (cs : list string),
    SchemaDefinitions.sql_columns (Some (c :: cs))
    = ([ "gene_id VARCHAR(50) PRIMARY KEY"; "gene_name VARCHAR(100)"; "gene_chr VARCHAR(10)";
         "gene_start BIGINT"; "gene_end BIGINT"; "gene_strand VARCHAR(1)";
         "gene_length INTEGER"; "gene_biotype VARCHAR(50)"; "gene_description TEXT" ]
       ++ SchemaDefinitions.sample_columns (c :: cs)
       ++ [ "tf_family VARCHAR(50)"; "log2foldchange DOUBLE PRECISION";
            "pvalue DOUBLE PRECISION"; "padj DOUBLE PRECISION" ]
       ++ List.filter SchemaDefinitions.is_sql_line
                      (SchemaDefinitions.readcount_columns (c :: cs))
       ++ List.filter SchemaDefinitions.is_sql_line
                      (SchemaDefinitions.fpkm_columns (c :: cs))
       ++ [ "log10_padj DOUBLE PRECISION";
            "created_at TIMESTAMP DEFAULT CURRENT_TIMESTAMP" ])%list
    /\ SchemaDefinitions.get_create_table_sql name (Some (c :: cs))
       = (SchemaDefinitions.nl ++ "    CREATE TABLE IF NOT EXISTS "
            ++ SchemaDefinitions.dq ++ name ++ SchemaDefinitions.dq ++ " ("
            ++ SchemaDefinitions.nl ++ "        "
            ++ PyStr.join ("," ++ SchemaDefinitions.nl ++ "        ")
                          (SchemaDefinitions.sql_columns (Some (c :: cs)))
            ++ SchemaDefinitions.nl ++ "    );" ++ SchemaDefinitions.nl ++ "    ")%string.
Proof. intros name c cs. split; [apply sql_columns_layout | reflexivity]. Qed.

(** X2.  Whatever the header, and also without one, the table declares
    the four columns on which [get_create_indexes_sql] builds its indexes. *)
Theorem X2_indexed_columns_declared :
  forall (columns : option (list string)) (column : string),
    In column SchemaDefinitions.indexed_columns ->
    In column (SchemaDefinitions.table_column_names columns).
Proof.
  intros columns column Hin. unfold SchemaDefinitions.table_column_names.
  destruct columns as [[|c cs]|].
  - destruct Hin as [<-|[<-|[<-|[<-|[]]]]]; vm_compute; tauto.
  - rewrite sql_columns_layout, !map_app.
    destruct Hin as [<-|[<-|[<-|[<-|[]]]]].
    + apply in_or_app. left. cbn. tauto.
    + apply in_or_app. left. cbn. tauto.
    + apply in_or_app. right. apply in_or_app. right. apply in_or_app. left. cbn. tauto.
    + apply in_or_app. right. apply in_or_app. right. apply in_or_app. left. cbn. tauto.
  - destruct Hin as [<-|[<-|[<-|[<-|[]]]]]; vm_compute; tauto.
Qed.

Lemma X2_witness :
  In "padj" (SchemaDefinitions.table_column_names (Some ["gene_id"; "notes"])).
Proof.
  apply (X2_indexed_columns_declared (Some ["gene_id"; "notes"]) "padj").
  cbn. tauto.
Defined.

(** X3.  The CREATE TABLE statement built from the header as read is the
    statement built from the canonical column names: schema derivation looks
    at the lower-case names only, and the two renamed headers are in no
    bucket before or after the renaming. *)
Theorem X3_create_table_of_mapped_header :
  forall (name : string) (df : MigrateRnaSeq.DataFrame),
    SchemaDefinitions.get_create_table_sql name
      (Some (MigrateRnaSeq.df_columns (MigrateRnaSeq.map_csv_to_database_columns df)))
    = SchemaDefinitions.get_create_table_sql name (Some (MigrateRnaSeq.df_columns df)).
Proof.
  intros name [columns values]. cbn [MigrateRnaSeq.map_csv_to_database_columns
    MigrateRnaSeq.df_columns].
  unfold SchemaDefinitions.get_create_table_sql. do 2 f_equal.
  destruct columns as [|c cs]; [reflexivity|].
  change (MigrateRnaSeq.column_mapping <$> c :: cs)
    with (MigrateRnaSeq.column_mapping c :: List.map MigrateRnaSeq.column_mapping cs).
  rewrite !sql_columns_layout.
  change (MigrateRnaSeq.column_mapping c :: List.map MigrateRnaSeq.column_mapping cs)
    with (List.map MigrateRnaSeq.column_mapping (c :: cs)).
  destruct (bucket_columns_mapped (c :: cs)) as (-> & -> & ->). reflexivity.
Qed.

(** X4.  A header column that falls in a bucket, has no blank in its name
    and does not start with [--] is declared by the CREATE TABLE statement
    under its canonical name, with the type of its bucket: the INSERT
    statement names a column the table has. *)
Theorem X4_bucket_column_declared :
  forall (columns : list string) (col : string),
    In col columns ->
    SchemaDefinitions.classify col <> SchemaDefinitions.Unmatched ->
    PyStr.contains " " col = false ->
    PyStr.startswith col "--" = false ->
    In (MigrateRnaSeq.column_mapping col)
       (SchemaDefinitions.table_column_names (Some columns))
    /\ In (PyStr.lower col ++
           match SchemaDefinitions.classify col with
           | SchemaDefinitions.ReadCount => " INTEGER"
           | _ => " DOUBLE PRECISION"
           end)%string
          (SchemaDefinitions.sql_columns (Some columns)).
Proof.
  intros columns col Hin Hcl Hblank Hdash.
  assert (Hdef : In (PyStr.lower col ++
                     match SchemaDefinitions.classify col with
                     | SchemaDefinitions.ReadCount => " INTEGER"
                     | _ => " DOUBLE PRECISION"
                     end)%string
                    (SchemaDefinitions.sql_columns (Some columns))).
  { destruct columns as [|c cs]; [destruct Hin|].
    rewrite sql_columns_layout.
    pose proof (in_bucket_columns col (c :: cs) Hin) as Hb.
    destruct (SchemaDefinitions.classify col) eqn:E.
    - apply in_or_app. right. apply in_or_app. left. exact Hb.
    - do 3 (apply in_or_app; right). apply in_or_app. left.
      apply filter_In. split; [exact Hb | apply column_line, Hdash].
    - do 4 (apply in_or_app; right). apply in_or_app. left.
      apply filter_In. split; [exact Hb | apply column_line, Hdash].
    - elim Hcl. reflexivity. }
  split; [|exact Hdef].
  destruct (classify_column_mapping col) as [_ ->]; [|exact Hcl].
  unfold SchemaDefinitions.table_column_names.
  pose proof (contains_blank_lower col Hblank) as Hlow.
  apply in_map_iff. eexists. split; [|exact Hdef].
  destruct (SchemaDefinitions.classify col);
    apply (first_token_app (PyStr.lower col) _ Hlow).
Qed.

Lemma X4_witness :
  In "shef1_readcount"
     (SchemaDefinitions.table_column_names (Some ["gene_id"; "SHEF1"; "SHEF1_readcount"]))
  /\ In "shef1_readcount INTEGER"
        (SchemaDefinitions.sql_columns (Some ["gene_id"; "SHEF1"; "SHEF1_readcount"])).
Proof.
  apply (X4_bucket_column_declared ["gene_id"; "SHEF1"; "SHEF1_readcount"] "SHEF1_readcount").
  - cbn. tauto.
  - discriminate.
  - reflexivity.
  - reflexivity.
Defined.

(** ** Loading a CSV file into a table that does not exist yet *)

Section FreshLoad.
Import PyStr Py Pg SchemaDefinitions MigrateRnaSeq.

(** Lower-case text holds no occurrence of text that starts with a capital. *)
Lemma contains_capital_app (p : ascii) (sub s t : string) :
  is_upper p = true -> all_lower s = true ->
  contains (String p sub) (s ++ t) = contains (String p sub) t.
Proof.
  intros Hp. induction s as [|a s IH]; [reflexivity|].
  change (all_lower (String a s)) with (negb (is_upper a) && all_lower s).
  intros H. apply andb_prop in H as [Ha Hs].
  change (String a s ++ t)%string with (String a (s ++ t)).
  rewrite contains_cons, prefix_cons.
  destruct (Ascii.eqb_spec p a) as [<-|_]; [rewrite Hp in Ha; discriminate Ha|].
  cbn [orb]. apply IH, Hs.
Qed.

Lemma filter_none {A} (f : A -> bool) (l : list A) :
  (forall x, In x l -> f x = false) -> List.filter f l = [].
Proof.
  induction l as [|x l IH]; [reflexivity|]. intros H. cbn [List.filter].
  rewrite (H x (or_introl eq_refl)). apply IH. intros y Hy. apply H. right. exact Hy.
Qed.

Lemma filter_keyword_flat (p : ascii) (kw : string) (f : string -> list string)
      (columns : list string) :
  is_upper p = true ->
  (forall col d, In d (f col) ->
                 exists t, d = (lower col ++ t)%string /\ contains (String p kw) t = false) ->
  List.filter (contains (String p kw)) (List.filter is_sql_line (flat_map f columns)) = []
  /\ List.filter (contains (String p kw)) (flat_map f columns) = [].
Proof.
  intros Hp Hf.
  assert (H : forall d, In d (flat_map f columns) -> contains (String p kw) d = false).
  { intros d Hd. apply in_flat_map in Hd as (col & _ & Hd).
    destruct (Hf col d Hd) as (t & -> & Ht).
    rewrite (contains_capital_app p kw _ t Hp (all_lower_lower col)). exact Ht. }
  split; apply filter_none; [|exact H].
  intros d Hd. apply filter_In in Hd as [Hd _]. apply H, Hd.
Qed.

Lemma filter_keyword_columns (p : ascii) (kw : string) (columns : list string) :
  is_upper p = true ->
  contains (String p kw) " DOUBLE PRECISION" = false ->
  contains (String p kw) " INTEGER" = false ->
  List.filter (contains (String p kw)) (sample_columns columns) = []
  /\ List.filter (contains (String p kw)) (List.filter is_sql_line (readcount_columns columns))
     = []
  /\ List.filter (contains (String p kw)) (List.filter is_sql_line (fpkm_columns columns)) = [].
Proof.
  intros Hp Hd Hi. unfold sample_columns, readcount_columns, fpkm_columns.
  split; [|split]; apply (filter_keyword_flat p kw _ columns Hp);
    intros col d Hin; destruct (classify col); cbn in Hin; try contradiction;
    destruct Hin as [<-|[]]; eexists; (split; [reflexivity | assumption]).
Qed.

(** The table created for a header: its key and its defaulted column. *)
Lemma created_table_shape (name c : string) (cs : list string) (d : db) :
  d !! name = None ->
  exists t,
    create_table_if_not_exists name (sql_columns (Some (c :: cs))) d = <[name := t]> d
    /\ schema t = table_column_names (Some (c :: cs))
    /\ not_null t = ["gene_id"]
    /\ ts_default t = ["created_at"]
    /\ rows t = [].
Proof.
  intros Hd. unfold create_table_if_not_exists. rewrite Hd. eexists. split; [reflexivity|].
  cbn [schema not_null ts_default rows]. split; [reflexivity|].
  rewrite sql_columns_layout, !List.filter_app.
  destruct (filter_keyword_columns "P" "RIMARY KEY" (c :: cs) eq_refl eq_refl eq_refl)
    as (-> & -> & ->).
  destruct (filter_keyword_columns "D" "EFAULT CURRENT_TIMESTAMP" (c :: cs)
              eq_refl eq_refl eq_refl) as (-> & -> & ->).
  repeat split; reflexivity.
Qed.
End FreshLoad.

Section FreshBatch.
Import Py Pg.

Lemma upsert_list_append {X : Type} (cf : X -> bool) (upd : X -> X) (new : X) (rs : list X) :
  Forall (fun x => cf x = false) rs -> upsert_list cf upd new rs = (rs ++ [new])%list.
Proof.
  intros H. induction H as [|x rs Hx _ IH]; [reflexivity|].
  cbn [upsert_list]. rewrite Hx, IH. reflexivity.
Qed.

Lemma conflicts_key (target : list string) (x v : gmap string sqlval) :
  conflicts target x v = true -> key_of target x = key_of target v.
Proof.
  unfold conflicts. intros H. apply andb_prop in H as [H _].
  apply bool_decide_eq_true in H. exact H.
Qed.

(** Parameter sets with distinct keys, none of them in the table, are
    appended in their order. *)
Lemma batch_rows_fresh (st : upsert_stmt) (t : table) (now : Z)
      (batch : list (gmap string sqlval)) (rs : list (gmap string sqlval)) :
  conflict_target st ⊆ insert_cols st ->
  NoDup ((key_of (conflict_target st) <$> batch) ++ (key_of (conflict_target st) <$> rs)) ->
  Upsert.batch_rows st t now batch rs = (rs ++ (Upsert.new_at st t now <$> batch))%list.
Proof.
  intros Hsub. unfold Upsert.batch_rows. revert rs.
  induction batch as [|v batch IH]; intros rs Hnd.
  - cbn. rewrite app_nil_r. reflexivity.
  - cbn [Upsert.pass fmap list_fmap]. rewrite upsert_list_append.
    + rewrite IH; [rewrite <- app_assoc; reflexivity|].
      rewrite fmap_app. cbn [fmap list_fmap]. unfold Upsert.new_at at 1.
      rewrite (key_of_excluded_row _ _ _ _ _ Hsub).
      cbn [fmap list_fmap app] in Hnd. apply NoDup_cons in Hnd as [Hv Hnd].
      rewrite app_assoc. apply NoDup_app. split; [exact Hnd|]. split; [|apply NoDup_singleton].
      intros k Hk Hk'. apply list_elem_of_singleton in Hk'. subst k. contradiction.
    + apply Forall_forall. intros x Hx.
      destruct (Upsert.cf_values st v x) eqn:E; [|reflexivity].
      apply conflicts_key in E. cbn [fmap list_fmap app] in Hnd.
      apply NoDup_cons in Hnd as [Hv _]. exfalso. apply Hv.
      apply elem_of_app. right. rewrite <- E. apply list_elem_of_fmap_2, Hx.
Qed.

(** The value bound to a column is the parameter at its position. *)
Lemma lookup_bind_params_index (cols : list string) (params : list pyval)
      (i : nat) (c : string) (v : pyval) :
  NoDup cols -> cols !! i = Some c -> params !! i = Some v ->
  bind_params cols params !! c = adapt v.
Proof.
  intros Hnd. revert params i. induction Hnd as [|c' cols Hc' _ IH]; intros params i Hc Hv.
  - destruct i; discriminate Hc.
  - destruct params as [|v' params]; [destruct i; discriminate Hv|].
    rewrite lookup_bind_params_cons. destruct i as [|i]; cbn in Hc, Hv.
    + injection Hc as <-. injection Hv as <-. rewrite decide_True by reflexivity. reflexivity.
    + rewrite decide_False; [apply (IH params i Hc Hv)|].
      intros <-. apply Hc'. eapply list_elem_of_lookup_2, Hc.
Qed.

Lemma stmt_fails_first (accepts : string -> gmap string sqlval -> bool)
      (st : upsert_stmt) (now : Z) (v : gmap string sqlval)
      (batch : list (gmap string sqlval)) (d : db) (t : table) :
  d !! into st = Some t -> stmt_ok accepts t st now v = false ->
  exec_many accepts st now (v :: batch) d = None.
Proof.
  intros Hd Hok. cbn [exec_many]. unfold exec_upsert. rewrite Hd, Hok. reflexivity.
Qed.
End FreshBatch.

Section RnaSeqRuns.
Import PyStr Py Pg SchemaDefinitions MigrateRnaSeq.
Variable accepts : string -> gmap string sqlval -> bool.
Variable ddl_ok : string -> list string -> bool.

Lemma key_columns_declared (c : string) (cs : list string) :
  In "gene_id" (table_column_names (Some (c :: cs)))
  /\ In "gene_name" (table_column_names (Some (c :: cs))).
Proof.
  unfold table_column_names. rewrite sql_columns_layout, !map_app.
  split; apply in_or_app; left; cbn; tauto.
Qed.

(** The run up to the insertion, for a comparison that has no table yet. *)
Lemma migrate_creates_then_inserts (w : world) (name : string) (d : db) (df : DataFrame)
      (c : string) (cs : list string) :
  csv w name = Csv df -> can_connect w = true -> d !! name = None ->
  df_columns df = c :: cs ->
  ddl_ok name (sql_columns (Some (df_columns df))) = true ->
  exists t,
    schema t = table_column_names (Some (df_columns df))
    /\ not_null t = ["gene_id"] /\ ts_default t = ["created_at"] /\ rows t = []
    /\ migrate_single_comparison accepts ddl_ok w name d
       = match exec_many accepts (insert_stmt name (column_mapping <$> df_columns df)) (now w)
                         (bind_params (column_mapping <$> df_columns df) <$> df_values df)
                         (<[name := t]> d) with
         | Some d' => (d', Return true)
         | None => (<[name := t]> d, Raise (SystemExit 1))
         end.
Proof.
  intros Hcsv Hconn Hnew Hcols Hddl.
  destruct (created_table_shape name c cs d Hnew) as (t & HD & Hsch & Hnn & Hts & Hrows).
  exists t. rewrite Hcols. repeat (split; [assumption|]).
  unfold migrate_single_comparison. rewrite Hcsv, Hconn.
  unfold seq, read_csv_file. rewrite Hcsv.
  unfold create_comparison_table. rewrite Hddl.
  cbn [pending on_pending commit]. rewrite Hcols, HD.
  unfold insert_data_to_database. cbn [pending on_pending commit map_csv_to_database_columns
    df_columns df_values]. rewrite Hcols.
  destruct (exec_many _ _ _ _ _); reflexivity.
Qed.

Lemma forall2_fmap_self {A B} (f : A -> B) (P : B -> A -> Prop) (l : list A) :
  (forall x, In x l -> P (f x) x) -> Forall2 P (f <$> l) l.
Proof.
  induction l as [|x l IH]; intros H; [constructor|].
  cbn [fmap list_fmap]. constructor; [apply H; left; reflexivity|].
  apply IH. intros y Hy. apply H. right. exact Hy.
Qed.

Lemma fresh_load (w : world) (name : string) (d : db) (df : DataFrame) :
  let columns := column_mapping <$> df_columns df in
  csv w name = Csv df -> can_connect w = true -> d !! name = None ->
  ddl_ok name (sql_columns (Some (df_columns df))) = true ->
  NoDup columns -> In "gene_id" columns ->
  Forall (fun c => In c (table_column_names (Some (df_columns df)))) columns ->
  Forall (fun row => accepts name (bind_params columns row) = true
                     /\ is_Some (bind_params columns row !! "gene_id")) (df_values df) ->
  NoDup ((fun row => bind_params columns row !! "gene_id") <$> df_values df) ->
  exists t,
    migrate_single_comparison accepts ddl_ok w name d = (<[name := t]> d, Return true)
    /\ Forall2 (fun r row =>
                  (forall i c v, columns !! i = Some c -> row !! i = Some v ->
                                 r !! c = adapt v)
                  /\ (~ In "created_at" columns ->
                      r !! "created_at" = Some (Timestamp (now w))))
               (rows t) (df_values df).
Proof.
  intros columns Hcsv Hconn Hnew Hddl Hnd Hgene Hdecl Hrows Hids.
  assert (Hne : exists c cs, df_columns df = c :: cs).
  { subst columns. destruct (df_columns df) as [|c cs]; [destruct Hgene | eauto]. }
  destruct Hne as (c & cs & Hcols).
  destruct (migrate_creates_then_inserts w name d df c cs Hcsv Hconn Hnew Hcols Hddl)
    as (t & Hsch & Hnn & Hts & Ht & ->).
  fold columns. set (st := insert_stmt name columns).
  assert (Hsub : conflict_target st ⊆ insert_cols st).
  { intros k Hk. apply list_elem_of_singleton in Hk. subst k.
    apply list_elem_of_In, Hgene. }
  assert (Hlook : <[name := t]> d !! into st = Some (with_rows t [])).
  { cbn [into st insert_stmt]. rewrite lookup_insert_eq, <- Ht, with_rows_rows. reflexivity. }
  rewrite (exec_many_rows accepts st t Hsub (now w) _ [] _ Hlook).
  assert (Hok : forallb (stmt_ok accepts t st (now w)) (bind_params columns <$> df_values df)
                = true).
  { apply forallb_forall. intros v Hv.
    apply list_elem_of_In, list_elem_of_fmap in Hv as (row & -> & Hrow).
    rewrite Forall_forall in Hrows. destruct (Hrows row Hrow) as [Hacc Hid].
    unfold stmt_ok. rewrite Hnn. cbn [forallb into st insert_stmt].
    rewrite Hacc, andb_true_r, andb_true_r.
    rewrite (lookup_excluded_row t st (now w) _ "gene_id")
      by (apply list_elem_of_In, Hgene).
    rewrite (bool_decide_eq_true_2 _ Hid), andb_true_r.
    rewrite (bool_decide_eq_true_2 (NoDup columns) Hnd), andb_true_r.
    unfold known_columns. apply forallb_forall. intros k Hk.
    apply bool_decide_eq_true. rewrite Hsch, Hcols. apply list_elem_of_In.
    cbn [insert_cols conflict_target set_excluded set_current_timestamp st insert_stmt] in Hk.
    apply in_app_or in Hk as [Hk|Hk].
    - rewrite <- Hcols. rewrite Forall_forall in Hdecl. apply Hdecl, list_elem_of_In, Hk.
    - destruct (key_columns_declared c cs) as [H1 H2].
      destruct Hk as [<-|[<-|[]]]; assumption. }
  rewrite Hok. exists (with_rows t (Upsert.batch_rows st t (now w)
                                      (bind_params columns <$> df_values df) [])).
  rewrite insert_insert_eq. split; [reflexivity|]. cbn [rows with_rows].
  rewrite batch_rows_fresh; [|exact Hsub|].
  - cbn [app]. rewrite <- list_fmap_compose. apply forall2_fmap_self.
    intros row _. unfold compose, Upsert.new_at. split.
    + intros i k v Hk Hv. rewrite lookup_excluded_row
        by (eapply list_elem_of_lookup_2, Hk).
      apply (lookup_bind_params_index columns row i k v Hnd Hk Hv).
    + intros Hno. rewrite lookup_excluded_row_any, Hts.
      rewrite lookup_bind_params_None by (rewrite list_elem_of_In; exact Hno).
      rewrite bool_decide_eq_true_2; [reflexivity|].
      apply list_elem_of_In, filter_In. split; [left; reflexivity|].
      apply negb_true_iff, bool_decide_eq_false. rewrite list_elem_of_In. exact Hno.
  - cbn [fmap list_fmap]. rewrite app_nil_r, <- list_fmap_compose.
    cbn [conflict_target st insert_stmt].
    assert (E : key_of ["gene_id"] ∘ bind_params columns
                = (fun o => [o]) ∘ (fun row => bind_params columns row !! "gene_id"))
      by reflexivity.
    rewrite E, list_fmap_compose. apply NoDup_fmap_2; [|exact Hids].
    intros a b Hab. injection Hab as ->. reflexivity.
Qed.

(** Two header columns with the same canonical name: the INSERT statement
    lists a column twice and the first row is refused. *)
Lemma load_with_name_clash (w : world) (name : string) (d : db) (df : DataFrame) :
  csv w name = Csv df -> can_connect w = true -> d !! name = None ->
  ddl_ok name (sql_columns (Some (df_columns df))) = true ->
  ~ NoDup (column_mapping <$> df_columns df) ->
  df_values df <> [] ->
  exists t,
    migrate_single_comparison accepts ddl_ok w name d
    = (<[name := t]> d, Raise (SystemExit 1))
    /\ rows t = [].
Proof.
  intros Hcsv Hconn Hnew Hddl Hdup Hrows.
  assert (Hne : exists c cs, df_columns df = c :: cs).
  { destruct (df_columns df) as [|c cs]; [elim Hdup; constructor | eauto]. }
  destruct Hne as (c & cs & Hcols).
  destruct (migrate_creates_then_inserts w name d df c cs Hcsv Hconn Hnew Hcols Hddl)
    as (t & _ & _ & _ & Ht & ->).
  exists t. split; [|exact Ht].
  destruct (df_values df) as [|row more]; [contradiction|].
  cbn [fmap list_fmap]. rewrite (stmt_fails_first accepts _ _ _ _ _ t); [reflexivity | |].
  - cbn [into insert_stmt]. apply lookup_insert_eq.
  - unfold stmt_ok. cbn [insert_cols insert_stmt].
    rewrite (bool_decide_eq_false_2 _ Hdup), andb_false_r. reflexivity.
Qed.
End RnaSeqRuns.

(** X5.  A comparison without a table, whose canonical column names are
    distinct, include [gene_id] and are all declared by the CREATE TABLE
    statement, and whose rows are accepted and carry distinct gene
    identifiers: the migration returns True and the table holds one row per
    CSV row, in the order of the file, with every cell under the canonical
    name of its column ([None] as NULL) and [created_at] set to the current
    timestamp. *)
Theorem X5_fresh_table_load :
  forall (accepts : string -> gmap string Pg.sqlval -> bool)
         (ddl_ok : string -> list string -> bool)
         (w : MigrateRnaSeq.world) (name : string) (d : Pg.db) (df : MigrateRnaSeq.DataFrame),
    let columns := MigrateRnaSeq.column_mapping <$> MigrateRnaSeq.df_columns df in
    MigrateRnaSeq.csv w name = MigrateRnaSeq.Csv df ->
    MigrateRnaSeq.can_connect w = true ->
    d !! name = None ->
    ddl_ok name (SchemaDefinitions.sql_columns (Some (MigrateRnaSeq.df_columns df))) = true ->
    NoDup columns ->
    In "gene_id" columns ->
    Forall (fun c => In c (SchemaDefinitions.table_column_names
                             (Some (MigrateRnaSeq.df_columns df)))) columns ->
    Forall (fun row => accepts name (Pg.bind_params columns row) = true
                       /\ is_Some (Pg.bind_params columns row !! "gene_id"))
           (MigrateRnaSeq.df_values df) ->
    NoDup ((fun row => Pg.bind_params columns row !! "gene_id")
             <$> MigrateRnaSeq.df_values df) ->
    exists t,
      MigrateRnaSeq.migrate_single_comparison accepts ddl_ok w name d
      = (<[name := t]> d, Py.Return true)
      /\ length (Pg.rows t) = length (MigrateRnaSeq.df_values df)
      /\ Forall2 (fun r row =>
                    (forall i c v, columns !! i = Some c -> row !! i = Some v ->
                                   r !! c = Pg.adapt v)
                    /\ (~ In "created_at" columns ->
                        r !! "created_at" = Some (Pg.Timestamp (MigrateRnaSeq.now w))))
                 (Pg.rows t) (MigrateRnaSeq.df_values df).
Proof.
  intros accepts ddl_ok w name d df columns Hcsv Hconn Hnew Hddl Hnd Hgene Hdecl Hrows Hids.
  destruct (fresh_load accepts ddl_ok w name d df Hcsv Hconn Hnew Hddl Hnd Hgene Hdecl
              Hrows Hids) as (t & Hrun & Hcells).
  exists t. split; [exact Hrun|]. split; [apply (Forall2_length _ _ _ Hcells) | exact Hcells].
Qed.

Lemma X5_witness :
  exists t,
    MigrateRnaSeq.migrate_single_comparison (fun _ _ => true) (fun _ _ => true)
      (one_csv_world shef_df) "A_vs_B" ∅
    = (<["A_vs_B" := t]> ∅, Py.Return true)
    /\ length (Pg.rows t) = 2.
Proof.
  destruct (X5_fresh_table_load (fun _ _ => true) (fun _ _ => true)
              (one_csv_world shef_df) "A_vs_B" ∅ shef_df) as (t & Hrun & Hlen & _).
  - reflexivity.
  - reflexivity.
  - reflexivity.
  - reflexivity.
  - decide_names.
  - vm_compute. tauto.
  - repeat constructor; vm_compute; tauto.
  - repeat constructor; vm_compute; eauto.
  - vm_compute.
    repeat (apply NoDup_cons_2;
            [intros H; apply list_elem_of_In in H; cbn in H; intuition discriminate|]).
    apply NoDup_nil_2.
  - exists t. split; [exact Hrun | exact Hlen].
Defined.

(** X6.  When two header columns have the same canonical name (they differ
    in case only, or one is [log2FoldChange] and the other
    [log2foldchange]), the INSERT statement lists that name twice: for a
    comparison without a table and a file with at least one row, the table
    is created, the first row is refused, and the run ends with exit status
    1 and an empty table. *)
Theorem X6_canonical_name_clash :
  forall (accepts : string -> gmap string Pg.sqlval -> bool)
         (ddl_ok : string -> list string -> bool)
         (w : MigrateRnaSeq.world) (name : string) (d : Pg.db) (df : MigrateRnaSeq.DataFrame),
    MigrateRnaSeq.csv w name = MigrateRnaSeq.Csv df ->
    MigrateRnaSeq.can_connect w = true ->
    d !! name = None ->
    ddl_ok name (SchemaDefinitions.sql_columns (Some (MigrateRnaSeq.df_columns df))) = true ->
    ~ NoDup (MigrateRnaSeq.column_mapping <$> MigrateRnaSeq.df_columns df) ->
    MigrateRnaSeq.df_values df <> [] ->
    exists t,
      MigrateRnaSeq.migrate_single_comparison accepts ddl_ok w name d
      = (<[name := t]> d, Py.Raise (Py.SystemExit 1))
      /\ Pg.rows t = []
      /\ Py.exit_status
           (snd (MigrateRnaSeq.main accepts ddl_ok w false (Some name) d)) = 1%Z.
Proof.
  intros accepts ddl_ok w name d df Hcsv Hconn Hnew Hddl Hdup Hrows.
  destruct (load_with_name_clash accepts ddl_ok w name d df Hcsv Hconn Hnew Hddl Hdup Hrows)
    as (t & Hrun & Ht).
  exists t. split; [exact Hrun|]. split; [exact Ht|].
  unfold MigrateRnaSeq.main. rewrite Hrun. reflexivity.
Qed.

Lemma X6_witness :
  MigrateRnaSeq.column_mapping "Gene_Name" = MigrateRnaSeq.column_mapping "gene_name"
  /\ snd (MigrateRnaSeq.migrate_single_comparison (fun _ _ => true) (fun _ _ => true)
            (one_csv_world clash_df) "A_vs_B" ∅)
     = Py.Raise (Py.SystemExit 1).
Proof.
  split; [reflexivity|].
  destruct (X6_canonical_name_clash (fun _ _ => true) (fun _ _ => true)
              (one_csv_world clash_df) "A_vs_B" ∅ clash_df) as (t & Hrun & _).
  - reflexivity.
  - reflexivity.
  - reflexivity.
  - reflexivity.
  - intros H. revert H. apply (bool_decide_unpack _). vm_compute. exact I.
  - discriminate.
  - rewrite Hrun. reflexivity.
Defined.

(** ** The loop over all comparisons *)

Section AllComparisons.
Import Py Pg MigrateRnaSeq.
Variable accepts : string -> gmap string sqlval -> bool.
Variable ddl_ok : string -> list string -> bool.

Lemma migrate_each_counts (w : world) (names : list string) (s f : nat) (d d' : db)
      (s' f' : nat) :
  migrate_each accepts ddl_ok w names s f d = (d', Return (s', f')) ->
  s' + f' = s + f + length names /\ s <= s' /\ f <= f'.
Proof.
  revert s f d. induction names as [|name names IH]; intros s f d H.
  - injection H as <- <- <-. cbn. lia.
  - cbn [migrate_each] in H.
    destruct (migrate_single_comparison accepts ddl_ok w name d) as [d1 [[|]|e]];
      [apply IH in H | apply IH in H | discriminate H]; cbn [length]; lia.
Qed.

Lemma migrate_missing (w : world) (name : string) (d : db) :
  csv w name = CsvMissing ->
  migrate_single_comparison accepts ddl_ok w name d = (d, Return false).
Proof. intros H. unfold migrate_single_comparison. rewrite H. reflexivity. Qed.

Lemma migrate_each_all_missing (w : world) (names : list string) (s f : nat) (d : db) :
  Forall (fun name => csv w name = CsvMissing) names ->
  migrate_each accepts ddl_ok w names s f d = (d, Return (s, f + length names)).
Proof.
  intros H. revert f. induction H as [|name names Hname _ IH]; intros f.
  - cbn. rewrite Nat.add_0_r. reflexivity.
  - cbn [migrate_each]. rewrite (migrate_missing w name d Hname), IH.
    cbn [length]. do 3 f_equal. lia.
Qed.
End AllComparisons.

(** X7.  Under [--all], when the loop over the comparisons comes to its
    end, the two counters add up to the number of comparisons, and [main]
    returns normally, with exit status 0, whatever the number of failed
    comparisons. *)
Theorem X7_all_counts_and_status :
  forall (accepts : string -> gmap string Pg.sqlval -> bool)
         (ddl_ok : string -> list string -> bool)
         (w : MigrateRnaSeq.world) (comparison : option string) (d d' : Pg.db)
         (successful failed : nat),
    MigrateRnaSeq.available w <> [] ->
    MigrateRnaSeq.migrate_each accepts ddl_ok w (MigrateRnaSeq.available w) 0 0 d
    = (d', Py.Return (successful, failed)) ->
    successful + failed = length (MigrateRnaSeq.available w)
    /\ MigrateRnaSeq.main accepts ddl_ok w true comparison d = (d', Py.Return tt)
    /\ Py.exit_status (snd (MigrateRnaSeq.main accepts ddl_ok w true comparison d)) = 0%Z.
Proof.
  intros accepts ddl_ok w comparison d d' successful failed Hne H.
  split; [apply (migrate_each_counts accepts ddl_ok _ _ _ _ _ _ _ _ H)|].
  assert (Hmain : MigrateRnaSeq.main accepts ddl_ok w true comparison d = (d', Py.Return tt)).
  { unfold MigrateRnaSeq.main. destruct (MigrateRnaSeq.available w); [contradiction|].
    rewrite H. reflexivity. }
  split; [exact Hmain | rewrite Hmain; reflexivity].
Qed.

Lemma X7_witness :
  MigrateRnaSeq.main (fun _ _ => true) (fun _ _ => true)
    (missing_csv_world ["A_vs_B"; "C_vs_D"]) true None ∅
  = (∅, Py.Return tt).
Proof.
  apply (X7_all_counts_and_status (fun _ _ => true) (fun _ _ => true)
           (missing_csv_world ["A_vs_B"; "C_vs_D"]) None ∅ ∅ 0 2).
  - discriminate.
  - reflexivity.
Defined.

(** X8.  A comparison whose CSV file is missing is reported as failed
    without a connection to the database.  When every comparison lacks its
    file, the run under [--all] counts them all as failed, leaves the
    database as it was and still ends with exit status 0, whereas the run for
    a single one of them ends with exit status 1. *)
Theorem X8_missing_csv_files :
  forall (accepts : string -> gmap string Pg.sqlval -> bool)
         (ddl_ok : string -> list string -> bool)
         (w : MigrateRnaSeq.world) (d : Pg.db),
    Forall (fun name => MigrateRnaSeq.csv w name = MigrateRnaSeq.CsvMissing)
           (MigrateRnaSeq.available w) ->
    MigrateRnaSeq.available w <> [] ->
    MigrateRnaSeq.migrate_each accepts ddl_ok w (MigrateRnaSeq.available w) 0 0 d
    = (d, Py.Return (0, length (MigrateRnaSeq.available w)))
    /\ MigrateRnaSeq.main accepts ddl_ok w true None d = (d, Py.Return tt)
    /\ (forall name, In name (MigrateRnaSeq.available w) ->
                     MigrateRnaSeq.main accepts ddl_ok w false (Some name) d
                     = (d, Py.Raise (Py.SystemExit 1)))
    /\ MigrateRnaSeq.main accepts ddl_ok w false None d = (d, Py.Raise (Py.SystemExit 1)).
Proof.
  intros accepts ddl_ok w d Hmiss Hne.
  pose proof (migrate_each_all_missing accepts ddl_ok w _ 0 0 d Hmiss) as Heach.
  cbn [Nat.add] in Heach. split; [exact Heach|].
  split; [|split].
  - unfold MigrateRnaSeq.main. destruct (MigrateRnaSeq.available w); [contradiction|].
    rewrite Heach. reflexivity.
  - intros name Hin. rewrite Forall_forall in Hmiss.
    unfold MigrateRnaSeq.main.
    rewrite (migrate_missing accepts ddl_ok w name d (Hmiss name (proj2 (list_elem_of_In _ _) Hin))).
    reflexivity.
  - unfold MigrateRnaSeq.main.
    destruct (MigrateRnaSeq.available w) as [|first rest]; [contradiction|].
    apply Forall_cons in Hmiss as [Hfirst _].
    rewrite (migrate_missing accepts ddl_ok w first d Hfirst). reflexivity.
Qed.

Lemma X8_witness :
  MigrateRnaSeq.main (fun _ _ => true) (fun _ _ => true)
    (missing_csv_world ["A_vs_B"; "C_vs_D"]) false (Some "C_vs_D") ∅
  = (∅, Py.Raise (Py.SystemExit 1)).
Proof.
  refine (proj1 (proj2 (proj2 (X8_missing_csv_files (fun _ _ => true) (fun _ _ => true)
           (missing_csv_world ["A_vs_B"; "C_vs_D"]) ∅ _ _))) "C_vs_D" _).
  - repeat constructor.
  - discriminate.
  - cbn. tauto.
Defined.
